(** * Hyperbilirubinemia risk calculator (AAP 2022): a shallow embedding

    The TypeScript modules of the calculator are embedded module by module:

    - [JS]: the fragment of JavaScript's [number] semantics the code relies on
      (IEEE comparisons with [NaN] and the infinities, [Math.floor],
      [Math.min], [Math.max], [Array.prototype.includes],
      [String.prototype.includes]) and JSON records read through decimal
      integer keys;
    - [ErrorHandling]: utils/error-handling.ts, the errors thrown;
    - [ErrorObjects]: utils/error-handling.ts, the error classes as objects,
      with [isCalculatorError] and [ensureError];
    - [ClinicalThresholds]: constants/clinical-thresholds.ts;
    - [FollowUpRules]: data/follow-up-rules.ts;
    - [AapTableLoader]: utils/aap-table-loader.ts;
    - [HyperbiliRiskTypes]: core/hyperbili-risk-types.ts;
    - [HyperbiliRisk]: core/hyperbili-risk.ts.

    Thrown exceptions become the left summand of [result]. The four JSON
    reference tables are not part of the sources at hand; every function that
    reads them takes them as a parameter. *)

From stdpp Require Import gmap strings sorting.
From Stdlib Require Import QArith Qround Lqa.

(* ================================================================== *)
(** ** JavaScript values *)
(* ================================================================== *)

Module JS.

(** A JavaScript [number]. Finite values are carried as exact rationals
    (every finite double is one); arithmetic on them is exact, i.e. the
    rounding of binary64 operations is not modelled, and [-0] is [0]. The
    three special values behave as IEEE 754 prescribes. *)
Inductive number : Type :=
  | NaN
  | NegInfinity
  | Num (q : Q)
  | Infinity.

Declare Scope js_scope.
Delimit Scope js_scope with js.
Bind Scope js_scope with number.

(** [a < b]: false as soon as one side is [NaN]. *)
Definition num_lt (a b : number) : bool :=
  match a, b with
  | NaN, _ | _, NaN => false
  | _, NegInfinity => false
  | NegInfinity, _ => true
  | Infinity, _ => false
  | Num _, Infinity => true
  | Num x, Num y => negb (Qle_bool y x)
  end.

(** [a <= b]. *)
Definition num_le (a b : number) : bool :=
  match a, b with
  | NaN, _ | _, NaN => false
  | NegInfinity, _ => true
  | _, Infinity => true
  | _, NegInfinity => false
  | Infinity, _ => false
  | Num x, Num y => Qle_bool x y
  end.

(** [a > b] and [a >= b] are the mirrored comparisons, as in IEEE 754. *)
Definition num_gt (a b : number) : bool := num_lt b a.
Definition num_ge (a b : number) : bool := num_le b a.

(** Unary minus. *)
Definition num_neg (a : number) : number :=
  match a with
  | NaN => NaN
  | NegInfinity => Infinity
  | Num x => Num (- x)
  | Infinity => NegInfinity
  end.

(** [a - b]. *)
Definition num_sub (a b : number) : number :=
  match a, b with
  | NaN, _ | _, NaN => NaN
  | Infinity, Infinity | NegInfinity, NegInfinity => NaN
  | Infinity, _ | _, NegInfinity => Infinity
  | NegInfinity, _ | _, Infinity => NegInfinity
  | Num x, Num y => Num (x - y)
  end.

Infix "<?" := num_lt : js_scope.
Infix "<=?" := num_le : js_scope.
Infix ">?" := num_gt : js_scope.
Infix ">=?" := num_ge : js_scope.
Infix "-" := num_sub : js_scope.
Notation "- x" := (num_neg x) : js_scope.

(** [Math.floor]. *)
Definition Math_floor (a : number) : number :=
  match a with
  | Num x => Num (inject_Z (Qfloor x))
  | _ => a
  end.

(** [Math.min(a, b)] and [Math.max(a, b)]: [NaN] as soon as one argument
    is. *)
Definition Math_min2 (a b : number) : number :=
  match a, b with
  | NaN, _ | _, NaN => NaN
  | _, _ => if (a <=? b)%js then a else b
  end.

Definition Math_max2 (a b : number) : number :=
  match a, b with
  | NaN, _ | _, NaN => NaN
  | _, _ => if (a >=? b)%js then a else b
  end.

(** [Math.max(...l)] and [Math.min(...l)]; on the empty list they are
    [-Infinity] and [Infinity]. *)
Definition Math_max (l : list number) : number := foldr Math_max2 NegInfinity l.
Definition Math_min (l : list number) : number := foldr Math_min2 Infinity l.

(** SameValueZero, the equality of [Array.prototype.includes]: [NaN] equals
    itself. *)
Definition sameValueZero (a b : number) : bool :=
  match a, b with
  | NaN, NaN => true
  | NegInfinity, NegInfinity => true
  | Infinity, Infinity => true
  | Num x, Num y => Qeq_bool x y
  | _, _ => false
  end.

(** [isNaN(a)]. *)
Definition isNaN (a : number) : bool :=
  match a with
  | NaN => true
  | _ => false
  end.

(** [l.includes(x)] on an array of numbers. *)
Definition Array_includes (l : list number) (x : number) : bool :=
  existsb (sameValueZero x) l.

(** [s.includes(sub)] on strings. *)
Fixpoint String_includes (s sub : string) : bool :=
  String.prefix sub s ||
  match s with
  | EmptyString => false
  | String _ s' => String_includes s' sub
  end.

(** Truthiness of a string: only the empty string is falsy. *)
Definition truthy (s : string) : bool :=
  match s with
  | EmptyString => false
  | _ => true
  end.

(** *** JSON records with integer keys

    The [thresholds] and [values] objects of a reference table are JSON
    records whose property names are the decimal numerals of integers
    (["35"], ["24"], ...). Such a record is modelled as a finite map on the
    integers: the integer [k] stands for the property name [String(k)], and
    [Number] reads it back. *)

(** [Object.keys(o)]: integer-like property names enumerate in ascending
    numeric order. *)
Definition Object_keys {A} (o : gmap Z A) : list Z :=
  merge_sort Z.le (fst <$> map_to_list o).

(** [Object.entries(o)], in the same order. *)
Definition Object_entries {A} (o : gmap Z A) : list (Z * A) :=
  omap (λ k, (λ v, (k, v)) <$> o !! k) (Object_keys o).

(** [Number(k)] for a property name. *)
Definition Number_of_key (k : Z) : number := Num (inject_Z k).

(** [o[String(n)]]: the property read with the string form of a number. Only
    an integral finite [n] prints as the numeral of an integer; every other
    number (["NaN"], ["Infinity"], ["35.5"], ...) names no property of such
    a record, and the read yields [undefined]. *)
Definition get_by_String {A} (o : gmap Z A) (n : number) : option A :=
  match n with
  | Num x => if Qeq_bool x (inject_Z (Qfloor x)) then o !! Qfloor x else None
  | _ => None
  end.

End JS.
Import JS.

(* ================================================================== *)
(** ** utils/error-handling.ts *)
(* ================================================================== *)

Module ErrorHandling.

(** What an error message says; the interpolated text is dropped, the values
    it is built from are kept. *)
Inductive message : Type :=
  | GestationalAgeBelowMinimum (gestationalAge : number)
  | GestationalAgeExceedsMaximum (gestationalAge : number)
  | AgeBelowMinimum (currentAgeHours : number)
  | AgeExceedsMaximum (ageHours : number)
  | TSBCannotBeNegative (currentTSB : number)
  | TSBExceedsMaximum (currentTSB : number)
  | TableNotFound (tableName : string)
  | MissingRequiredFields (tableName : string)
  | InvalidUnits (tableName : string) (units : string)
  | InvalidThresholdStructure (ga : Z) (tableName : string)
  | InvalidPlateauHour (ga : Z) (tableName : string) (maxHour plateauHour : number)
  | NoThresholdData (gestationalAge : number) (gaKey : number)
  | NoThresholdValueForHour (hour : number) (gaKey : number)
  | UnableToDetermineKey (gestationalAge : number) (availableKeys : list number)
  | FailedToLoad (tableName : string) (originalError : message).

(** The subclasses of [BaseCalculatorError] the calculator throws. *)
Inductive error : Type :=
  | InvalidInputError (m : message)
  | DataNotAvailableError (m : message)
  | InternalError (m : message).

Definition error_message (e : error) : message :=
  match e with
  | InvalidInputError m | DataNotAvailableError m | InternalError m => m
  end.

(** A computation that returns an [A] or throws. *)
Definition result (A : Type) : Type := error + A.

Definition ret {A} (a : A) : result A := inr a.
Definition throw {A} (e : error) : result A := inl e.

Definition bind {A B} (c : result A) (k : A → result B) : result B :=
  match c with
  | inl e => inl e
  | inr a => k a
  end.

End ErrorHandling.
Import ErrorHandling.

Notation "'let*' x ':=' c 'in' k" := (bind c (λ x, k))
  (at level 10, x pattern, c at level 100, k at level 200).

(* ================================================================== *)
(** ** constants/clinical-thresholds.ts *)
(* ================================================================== *)

Module HYPERBILI_THRESHOLDS.
Definition ESCALATION_OFFSET_MG_DL : number := Num 2.
Definition TCB_CONFIRMATION_OFFSET_MG_DL : number := Num 2.
Definition DISCHARGE_WARNING_AGE_HOURS : number := Num 24.
Definition MIN_AGE_HOURS : number := Num 1.
Definition MAX_AGE_HOURS : number := Num 336.
Definition FOLLOW_UP_AGE_THRESHOLD_HOURS : number := Num 72.
Definition MIN_GESTATIONAL_AGE_WEEKS : number := Num 35.
Definition MAX_GESTATIONAL_AGE_WEEKS : number := Num 42.
Definition MIN_TSB_MG_DL : number := Num 0.
Definition MAX_TSB_MG_DL : number := Num 30.
End HYPERBILI_THRESHOLDS.

(* ================================================================== *)
(** ** data/follow-up-rules.ts *)
(* ================================================================== *)

Module FollowUpRules.

Record AgeCondition : Type := {
  minHours : option number;   (* inclusive; [None] is [undefined] *)
  maxHours : option number    (* exclusive; [None] is [undefined] *)
}.

Record FollowUpRule : Type := {
  id : string;
  minDifference : number;
  maxDifference : number;
  ageCondition : AgeCondition;
  recommendation : string;
  notes : option string
}.

Definition rule_1a : FollowUpRule := {|
  id := "rule_1a";
  minDifference := Num 0.1;
  maxDifference := Num 2.0;
  ageCondition := {| minHours := None;
                     maxHours := Some HYPERBILI_THRESHOLDS.DISCHARGE_WARNING_AGE_HOURS |};
  recommendation := "Delay discharge, consider phototherapy, measure TSB in 4 to 8 hours";
  notes := Some "For infants < 24 hours old who are very close to phototherapy threshold"
|}.

Definition rule_1b : FollowUpRule := {|
  id := "rule_1b";
  minDifference := Num 0.1;
  maxDifference := Num 2.0;
  ageCondition := {| minHours := Some HYPERBILI_THRESHOLDS.DISCHARGE_WARNING_AGE_HOURS;
                     maxHours := None |};
  recommendation := "Measure TSB in 4 to 24 hours. Options: delay discharge and consider phototherapy, discharge with home phototherapy if eligible, or discharge without phototherapy but with close follow-up";
  notes := Some "For infants ≥ 24 hours old who are very close to phototherapy threshold"
|}.

Definition rule_2 : FollowUpRule := {|
  id := "rule_2";
  minDifference := Num 2.0;
  maxDifference := Num 3.5;
  ageCondition := {| minHours := None; maxHours := None |};
  recommendation := "TSB or TcB in 4 to 24 hours";
  notes := Some "Moderate risk zone requiring prompt follow-up"
|}.

Definition rule_3 : FollowUpRule := {|
  id := "rule_3";
  minDifference := Num 3.5;
  maxDifference := Num 5.5;
  ageCondition := {| minHours := None; maxHours := None |};
  recommendation := "TSB or TcB in 1-2 days";
  notes := Some "Lower risk zone with standard follow-up timing"
|}.

Definition rule_4a : FollowUpRule := {|
  id := "rule_4a";
  minDifference := Num 5.5;
  maxDifference := Num 7.0;
  ageCondition := {| minHours := None;
                     maxHours := Some HYPERBILI_THRESHOLDS.FOLLOW_UP_AGE_THRESHOLD_HOURS |};
  recommendation := "Follow-up within 2 days; TcB or TSB according to clinical judgment";
  notes := Some "For younger infants (< 72 hours) in the low risk zone"
|}.

Definition rule_4b : FollowUpRule := {|
  id := "rule_4b";
  minDifference := Num 5.5;
  maxDifference := Num 7.0;
  ageCondition := {| minHours := Some HYPERBILI_THRESHOLDS.FOLLOW_UP_AGE_THRESHOLD_HOURS;
                     maxHours := None |};
  recommendation := "Clinical judgment";
  notes := Some "For older infants (≥ 72 hours) in the low risk zone"
|}.

Definition rule_5a : FollowUpRule := {|
  id := "rule_5a";
  minDifference := Num 7.0;
  maxDifference := Infinity;
  ageCondition := {| minHours := None;
                     maxHours := Some HYPERBILI_THRESHOLDS.FOLLOW_UP_AGE_THRESHOLD_HOURS |};
  recommendation := "Follow-up within 3 days; TcB or TSB according to clinical judgment";
  notes := Some "For younger infants (< 72 hours) in the very low risk zone"
|}.

Definition rule_5b : FollowUpRule := {|
  id := "rule_5b";
  minDifference := Num 7.0;
  maxDifference := Infinity;
  ageCondition := {| minHours := Some HYPERBILI_THRESHOLDS.FOLLOW_UP_AGE_THRESHOLD_HOURS;
                     maxHours := None |};
  recommendation := "Clinical judgment";
  notes := Some "For older infants (≥ 72 hours) in the very low risk zone"
|}.

(** The authored catalog, in its order. *)
Definition HYPERBILI_FOLLOW_UP_RULES : list FollowUpRule :=
  [rule_1a; rule_1b; rule_2; rule_3; rule_4a; rule_4b; rule_5a; rule_5b].

Definition BELOW_THRESHOLD_RULE : FollowUpRule := {|
  id := "rule_negative";
  minDifference := NegInfinity;
  maxDifference := Num 0;
  ageCondition := {| minHours := None; maxHours := None |};
  recommendation := "TSB exceeds phototherapy threshold - phototherapy is indicated";
  notes := Some "When TSB is at or above the phototherapy threshold"
|}.

(** The object literal returned when [find] yields [undefined]. *)
Definition rule_fallback : FollowUpRule := {|
  id := "rule_fallback";
  minDifference := Num 0;
  maxDifference := Infinity;
  ageCondition := {| minHours := None; maxHours := None |};
  recommendation := "Clinical judgment - consult AAP guidelines";
  notes := Some "No specific rule found for this combination"
|}.

(** The predicate handed to [find]. *)
Definition rule_matches (differenceFromThreshold ageHours : number)
    (rule : FollowUpRule) : bool :=
  let inDifferenceRange :=
    (differenceFromThreshold >? minDifference rule)%js &&
    (differenceFromThreshold <=? maxDifference rule)%js in
  let meetsAgeCondition :=
    match minHours (ageCondition rule) with
    | None => true
    | Some m => (ageHours >=? m)%js
    end &&
    match maxHours (ageCondition rule) with
    | None => true
    | Some m => (ageHours <? m)%js
    end in
  inDifferenceRange && meetsAgeCondition.

Definition findFollowUpRule (differenceFromThreshold ageHours : number)
    : FollowUpRule :=
  if (differenceFromThreshold <=? Num 0)%js then BELOW_THRESHOLD_RULE
  else
    match find (rule_matches differenceFromThreshold ageHours)
               HYPERBILI_FOLLOW_UP_RULES with
    | None => rule_fallback
    | Some matchingRule => matchingRule
    end.

End FollowUpRules.
Import FollowUpRules.

(* ================================================================== *)
(** ** utils/aap-table-loader.ts *)
(* ================================================================== *)

Module AapTableLoader.

(** One gestational-age entry of a reference table. *)
Record GestationalAgeThreshold : Type := {
  ga_description : string;      (* [description] *)
  plateauHour : number;
  plateauValue : number;
  values : gmap Z number
}.

(** A complete reference table. *)
Record AapReferenceTable : Type := {
  title : string;
  description : string;
  source : string;
  units : string;
  thresholds : gmap Z GestationalAgeThreshold
}.

(** The four JSON modules the loader imports. They are data of the
    repository that the sources at hand do not contain, hence a parameter
    of everything below. *)
Record ReferenceData : Type := {
  phototherapyNoRiskData : AapReferenceTable;
  phototherapyWithRiskData : AapReferenceTable;
  exchangeNoRiskData : AapReferenceTable;
  exchangeWithRiskData : AapReferenceTable
}.

Definition REFERENCE_TABLES (data : ReferenceData) : gmap string AapReferenceTable :=
  list_to_map
    [("supplemental-table-1-phototherapy-no-risk", phototherapyNoRiskData data);
     ("supplemental-table-2-phototherapy-with-risk", phototherapyWithRiskData data);
     ("supplemental-table-3-exchange-no-risk", exchangeNoRiskData data);
     ("supplemental-table-4-exchange-with-risk", exchangeWithRiskData data)].

(** The check made on each entry of [table.thresholds]. The [typeof] tests
    and [!threshold.values] cannot fire on a typed record. *)
Definition validateThreshold (tableName : string)
    (entry : Z * GestationalAgeThreshold) : result unit :=
  let '(ga, threshold) := entry in
  if negb (truthy (ga_description threshold)) then
    throw (InvalidInputError (InvalidThresholdStructure ga tableName))
  else
    let maxHour := Math_max (Number_of_key <$> Object_keys (values threshold)) in
    if (maxHour <? plateauHour threshold)%js then
      throw (InvalidInputError
               (InvalidPlateauHour ga tableName maxHour (plateauHour threshold)))
    else ret ().

(** The [for ... of] loop: the first failing entry throws. *)
Fixpoint validateThresholds (tableName : string)
    (entries : list (Z * GestationalAgeThreshold)) : result unit :=
  match entries with
  | [] => ret ()
  | entry :: rest =>
      let* _ := validateThreshold tableName entry in
      validateThresholds tableName rest
  end.

Definition validateTableStructure (table : AapReferenceTable)
    (tableName : string) : result unit :=
  if negb (truthy (title table)) || negb (truthy (description table)) ||
     negb (truthy (source table)) || negb (truthy (units table)) then
    throw (InvalidInputError (MissingRequiredFields tableName))
  else if negb (String.eqb (units table) "mg/dL") then
    throw (InvalidInputError (InvalidUnits tableName (units table)))
  else validateThresholds tableName (Object_entries (thresholds table)).

(** Whatever the validation throws is caught and rethrown as an
    [InternalError]. *)
Definition loadReferenceTable (data : ReferenceData) (tableName : string)
    : result AapReferenceTable :=
  match REFERENCE_TABLES data !! tableName with
  | None => throw (DataNotAvailableError (TableNotFound tableName))
  | Some table =>
      match validateTableStructure table tableName with
      | inl e => throw (InternalError (FailedToLoad tableName (error_message e)))
      | inr _ => ret table
      end
  end.

Definition determineGestationalAgeKey (table : AapReferenceTable)
    (gestationalAge : number) : result number :=
  (* ascending already, so [.sort((a, b) => a - b)] changes nothing *)
  let availableKeys := Number_of_key <$> Object_keys (thresholds table) in
  let maxKey := Math_max availableKeys in
  (* phototherapy without risk factors (includes 40+ grouping) *)
  if String_includes (title table) "Without" &&
     Array_includes availableKeys (Num 40) &&
     (gestationalAge >=? Num 40)%js then ret (Num 40)
  (* phototherapy with risk factors (38+ grouping) *)
  else if String_includes (title table) "With" &&
          String_includes (title table) "Phototherapy" &&
          (gestationalAge >=? Num 38)%js then ret (Num 38)
  (* exchange transfusion tables (38+ grouping for both) *)
  else if String_includes (title table) "Exchange" &&
          (gestationalAge >=? Num 38)%js then ret (Num 38)
  else
    let flooredGA := Math_floor gestationalAge in
    if Array_includes availableKeys flooredGA then ret flooredGA
    else if (flooredGA >=? maxKey)%js then ret maxKey
    else
      let minKey := Math_min availableKeys in
      if (flooredGA <=? minKey)%js then ret minKey
      else throw (InvalidInputError
                    (UnableToDetermineKey gestationalAge availableKeys)).

(** [Math.max(1, Math.min(336, Math.floor(ageHours)))]. *)
Definition clampHours (ageHours : number) : number :=
  Math_max2 (Num 1) (Math_min2 (Num 336) (Math_floor ageHours)).

Definition getThresholdValue (table : AapReferenceTable)
    (gestationalAge ageHours : number) : result number :=
  let* gaKey := determineGestationalAgeKey table gestationalAge in
  match get_by_String (thresholds table) gaKey with
  | None => throw (DataNotAvailableError (NoThresholdData gestationalAge gaKey))
  | Some threshold =>
      let clampedHours := clampHours ageHours in
      if (clampedHours >=? plateauHour threshold)%js then
        ret (plateauValue threshold)
      else
        match get_by_String (values threshold) clampedHours with
        | None => throw (DataNotAvailableError
                           (NoThresholdValueForHour clampedHours gaKey))
        | Some value => ret value
        end
  end.

(** The object returned by [loadAllReferenceTables]. *)
Record ReferenceTables : Type := {
  phototherapyNoRisk : AapReferenceTable;
  phototherapyWithRisk : AapReferenceTable;
  exchangeNoRisk : AapReferenceTable;
  exchangeWithRisk : AapReferenceTable
}.

Definition loadAllReferenceTables (data : ReferenceData) : result ReferenceTables :=
  let* t1 := loadReferenceTable data "supplemental-table-1-phototherapy-no-risk" in
  let* t2 := loadReferenceTable data "supplemental-table-2-phototherapy-with-risk" in
  let* t3 := loadReferenceTable data "supplemental-table-3-exchange-no-risk" in
  let* t4 := loadReferenceTable data "supplemental-table-4-exchange-with-risk" in
  ret {| phototherapyNoRisk := t1; phototherapyWithRisk := t2;
         exchangeNoRisk := t3; exchangeWithRisk := t4 |}.

End AapTableLoader.
Import AapTableLoader.

(* ================================================================== *)
(** ** core/hyperbili-risk-types.ts *)
(* ================================================================== *)

Module HyperbiliRiskTypes.

Record AapBilirubinThresholds : Type := {
  phototherapy : number;
  escalationOfCare : number;
  exchangeTransfusion : number;
  transcutaneousBilirubinConfirmation : number
}.

Record AapClinicalStatus : Type := {
  requiresPhototherapy : bool;
  requiresIntensivePhototherapy : bool;
  requiresExchangeTransfusion : bool;
  requiresSerumConfirmationForTcB : bool
}.

Record ThresholdDifferences : Type := {
  fromPhototherapy : number;
  fromEscalationOfCare : number;
  fromExchangeTransfusion : number
}.

Record ClinicalGuidance : Type := {
  immediateAction : string;
  followUpRecommendation : string;
  dischargeConsiderations : option string     (* [None] is [undefined] *)
}.

Record AssessmentContext : Type := {
  hasNeurotoxicityRiskFactors : bool;
  presentRiskFactors : list string;
  aapFigureUsed : Z;                          (* 2 | 3 *)
  ctx_ageHours : number;                      (* [ageHours] *)
  ctx_gestationalAgeWeeks : number            (* [gestationalAgeWeeks] *)
}.

Record HyperbiliRiskResult : Type := {
  res_currentTSB : number;                    (* [currentTSB] *)
  res_thresholds : AapBilirubinThresholds;    (* [thresholds] *)
  clinicalStatus : AapClinicalStatus;
  thresholdDifferences : ThresholdDifferences;
  clinicalGuidance : ClinicalGuidance;
  assessmentContext : AssessmentContext
}.

Record HyperbiliRiskInput : Type := {
  gestationalAge : number;
  currentAgeHours : number;
  currentTSB : number;
  riskFactors : option (list string)          (* optional field *)
}.

(** The input records [BilirubinThresholdsInput], [ClinicalStatusInput],
    [ClinicalGuidanceInput] and [AapClinicalActionInput] are destructured on
    entry by every function that takes one; their fields are passed as
    separate arguments. *)

Definition determineAapClinicalAction (bilirubinMgDl : number)
    (thresholds : AapBilirubinThresholds) : string :=
  if (bilirubinMgDl >=? exchangeTransfusion thresholds)%js then
    "Begin exchange transfusion"
  else if (bilirubinMgDl >=? escalationOfCare thresholds)%js then
    "Begin intensive phototherapy and prepare for exchange transfusion"
  else if (bilirubinMgDl >=? phototherapy thresholds)%js then
    "Begin phototherapy"
  else
    "No phototherapy required".

End HyperbiliRiskTypes.
Import HyperbiliRiskTypes.

(* ================================================================== *)
(** ** core/hyperbili-risk.ts *)
(* ================================================================== *)

Module HyperbiliRisk.

Import HYPERBILI_THRESHOLDS.

Definition validateHyperbiliRiskInput (input : HyperbiliRiskInput) : result unit :=
  if (gestationalAge input <? MIN_GESTATIONAL_AGE_WEEKS)%js then
    throw (InvalidInputError (GestationalAgeBelowMinimum (gestationalAge input)))
  else if (gestationalAge input >? MAX_GESTATIONAL_AGE_WEEKS)%js then
    throw (InvalidInputError (GestationalAgeExceedsMaximum (gestationalAge input)))
  else if (currentAgeHours input <? MIN_AGE_HOURS)%js then
    throw (InvalidInputError (AgeBelowMinimum (currentAgeHours input)))
  else if (currentAgeHours input >? MAX_AGE_HOURS)%js then
    throw (InvalidInputError (AgeExceedsMaximum (currentAgeHours input)))
  else if (currentTSB input <? MIN_TSB_MG_DL)%js then
    throw (InvalidInputError (TSBCannotBeNegative (currentTSB input)))
  else if (currentTSB input >? MAX_TSB_MG_DL)%js then
    throw (InvalidInputError (TSBExceedsMaximum (currentTSB input)))
  else ret ().

Definition calculateBilirubinThresholds (data : ReferenceData)
    (gestationalAgeWeeks ageHours : number)
    (hasNeurotoxicityRiskFactors : bool) : result AapBilirubinThresholds :=
  let* tables := loadAllReferenceTables data in
  if (ageHours >? MAX_AGE_HOURS)%js then
    throw (InvalidInputError (AgeExceedsMaximum ageHours))
  else
    let clampedAgeHours := ageHours in
    let phototherapyTable :=
      if hasNeurotoxicityRiskFactors then phototherapyWithRisk tables
      else phototherapyNoRisk tables in
    let exchangeTable :=
      if hasNeurotoxicityRiskFactors then exchangeWithRisk tables
      else exchangeNoRisk tables in
    let* phototherapy :=
      getThresholdValue phototherapyTable gestationalAgeWeeks clampedAgeHours in
    let* exchangeTransfusion :=
      getThresholdValue exchangeTable gestationalAgeWeeks clampedAgeHours in
    ret {| phototherapy := phototherapy;
           escalationOfCare := (exchangeTransfusion - ESCALATION_OFFSET_MG_DL)%js;
           exchangeTransfusion := exchangeTransfusion;
           transcutaneousBilirubinConfirmation :=
             (phototherapy - TCB_CONFIRMATION_OFFSET_MG_DL)%js |}.

Definition assessClinicalStatus (bilirubinMgDl : number)
    (thresholds : AapBilirubinThresholds) : AapClinicalStatus :=
  {| requiresPhototherapy := (bilirubinMgDl >=? phototherapy thresholds)%js;
     requiresIntensivePhototherapy :=
       (bilirubinMgDl >=? escalationOfCare thresholds)%js;
     requiresExchangeTransfusion :=
       (bilirubinMgDl >=? exchangeTransfusion thresholds)%js;
     requiresSerumConfirmationForTcB :=
       (bilirubinMgDl >=? transcutaneousBilirubinConfirmation thresholds)%js |}.

Definition generateClinicalGuidance (bilirubinMgDl : number)
    (thresholds : AapBilirubinThresholds) (ageHours : number) : ClinicalGuidance :=
  let phototherapyDiff := (bilirubinMgDl - phototherapy thresholds)%js in
  let immediateAction := determineAapClinicalAction bilirubinMgDl thresholds in
  let followUpRecommendation :=
    if (phototherapyDiff >=? Num 0)%js then
      "Phototherapy indicated - see clinical action"
    else
      let diffBelowThreshold := (- phototherapyDiff)%js in
      let rule := findFollowUpRule diffBelowThreshold ageHours in
      recommendation rule in
  let dischargeConsiderations :=
    if (ageHours <? DISCHARGE_WARNING_AGE_HOURS)%js &&
       (phototherapyDiff >? - TCB_CONFIRMATION_OFFSET_MG_DL)%js then
      Some "Consider delaying discharge for infants <24 hours old when TSB is within 2 mg/dL of phototherapy threshold"
    else None in
  {| immediateAction := immediateAction;
     followUpRecommendation := followUpRecommendation;
     dischargeConsiderations := dischargeConsiderations |}.

Definition assessHyperbiliRisk (data : ReferenceData) (input : HyperbiliRiskInput)
    : result HyperbiliRiskResult :=
  let* _ := validateHyperbiliRiskInput input in
  let ageHours := currentAgeHours input in
  (* [input.riskFactors ?? []] *)
  let presentRiskFactors := default [] (riskFactors input) in
  let hasNeurotoxicityRiskFactors := (0 <? length presentRiskFactors)%nat in
  let aapFigureUsed := if hasNeurotoxicityRiskFactors then 3%Z else 2%Z in
  let* thresholds :=
    calculateBilirubinThresholds data (gestationalAge input) ageHours
                                 hasNeurotoxicityRiskFactors in
  let clinicalStatus := assessClinicalStatus (currentTSB input) thresholds in
  let thresholdDifferences :=
    {| fromPhototherapy := (currentTSB input - phototherapy thresholds)%js;
       fromEscalationOfCare := (currentTSB input - escalationOfCare thresholds)%js;
       fromExchangeTransfusion :=
         (currentTSB input - exchangeTransfusion thresholds)%js |} in
  let clinicalGuidance :=
    generateClinicalGuidance (currentTSB input) thresholds ageHours in
  ret {| res_currentTSB := currentTSB input;
         res_thresholds := thresholds;
         clinicalStatus := clinicalStatus;
         thresholdDifferences := thresholdDifferences;
         clinicalGuidance := clinicalGuidance;
         assessmentContext :=
           {| hasNeurotoxicityRiskFactors := hasNeurotoxicityRiskFactors;
              presentRiskFactors := presentRiskFactors;
              aapFigureUsed := aapFigureUsed;
              ctx_ageHours := currentAgeHours input;
              ctx_gestationalAgeWeeks := gestationalAge input |} |}.

End HyperbiliRisk.
Import HyperbiliRisk.

(** The second copy of core/hyperbili-risk.ts in the repository differs from
    the one above in a single place: its [assessHyperbiliRisk] does not call
    [validateHyperbiliRiskInput]. *)
Module HyperbiliRiskUnvalidated.

Definition assessHyperbiliRisk (data : ReferenceData) (input : HyperbiliRiskInput)
    : result HyperbiliRiskResult :=
  let ageHours := currentAgeHours input in
  let presentRiskFactors := default [] (riskFactors input) in
  let hasNeurotoxicityRiskFactors := (0 <? length presentRiskFactors)%nat in
  let aapFigureUsed := if hasNeurotoxicityRiskFactors then 3%Z else 2%Z in
  let* thresholds :=
    calculateBilirubinThresholds data (gestationalAge input) ageHours
                                 hasNeurotoxicityRiskFactors in
  let clinicalStatus := assessClinicalStatus (currentTSB input) thresholds in
  let thresholdDifferences :=
    {| fromPhototherapy := (currentTSB input - phototherapy thresholds)%js;
       fromEscalationOfCare := (currentTSB input - escalationOfCare thresholds)%js;
       fromExchangeTransfusion :=
         (currentTSB input - exchangeTransfusion thresholds)%js |} in
  let clinicalGuidance :=
    generateClinicalGuidance (currentTSB input) thresholds ageHours in
  ret {| res_currentTSB := currentTSB input;
         res_thresholds := thresholds;
         clinicalStatus := clinicalStatus;
         thresholdDifferences := thresholdDifferences;
         clinicalGuidance := clinicalGuidance;
         assessmentContext :=
           {| hasNeurotoxicityRiskFactors := hasNeurotoxicityRiskFactors;
              presentRiskFactors := presentRiskFactors;
              aapFigureUsed := aapFigureUsed;
              ctx_ageHours := currentAgeHours input;
              ctx_gestationalAgeWeeks := gestationalAge input |} |}.

End HyperbiliRiskUnvalidated.

(* ================================================================== *)
(** ** Reference data for the examples *)
(* ================================================================== *)

(** A small, well-formed instance of the four reference tables, laid out as
    the loader expects them: integer gestational-age keys, hourly values from
    hour 1 to the plateau hour, titles carrying the words the key resolver
    looks for. The numbers are illustrative, not the published ones. *)
Module Sample.

(** Hourly values [base + h/10] for the hours [1 .. lastHour]. *)
Definition hourly (base : Q) (lastHour : Z) : gmap Z number :=
  list_to_map ((λ h, (h, Num (base + inject_Z h / 10))) <$> seqZ 1 lastHour).

Definition entry (descr : string) (base : Q) (plateau : Z) : GestationalAgeThreshold :=
  {| ga_description := descr;
     plateauHour := Num (inject_Z plateau);
     plateauValue := Num (base + inject_Z plateau / 10);
     values := hourly base plateau |}.

Definition phototherapyNoRiskTable : AapReferenceTable :=
  {| title := "Phototherapy Thresholds Without Neurotoxicity Risk Factors";
     description := "Phototherapy thresholds by gestational age and age in hours";
     source := "AAP 2022 Clinical Practice Guideline, Supplemental Table 1";
     units := "mg/dL";
     thresholds := list_to_map
       [(35, entry "35 weeks" 6 96); (36, entry "36 weeks" 6.5 96);
        (37, entry "37 weeks" 7 96); (38, entry "38 weeks" 7.5 96);
        (39, entry "39 weeks" 8 96); (40, entry "40 weeks or more" 8.5 96)]%Z |}.

Definition phototherapyWithRiskTable : AapReferenceTable :=
  {| title := "Phototherapy Thresholds With Neurotoxicity Risk Factors";
     description := "Phototherapy thresholds by gestational age and age in hours";
     source := "AAP 2022 Clinical Practice Guideline, Supplemental Table 2";
     units := "mg/dL";
     thresholds := list_to_map
       [(35, entry "35 weeks" 4.5 96); (36, entry "36 weeks" 5 96);
        (37, entry "37 weeks" 5.5 96); (38, entry "38 weeks or more" 6 96)]%Z |}.

Definition exchangeNoRiskTable : AapReferenceTable :=
  {| title := "Exchange Transfusion Thresholds Without Neurotoxicity Risk Factors";
     description := "Exchange transfusion thresholds by gestational age and age in hours";
     source := "AAP 2022 Clinical Practice Guideline, Supplemental Table 3";
     units := "mg/dL";
     thresholds := list_to_map
       [(35, entry "35 weeks" 14 60); (36, entry "36 weeks" 15 60);
        (37, entry "37 weeks" 16 60); (38, entry "38 weeks or more" 17 60)]%Z |}.

Definition exchangeWithRiskTable : AapReferenceTable :=
  {| title := "Exchange Transfusion Thresholds With Neurotoxicity Risk Factors";
     description := "Exchange transfusion thresholds by gestational age and age in hours";
     source := "AAP 2022 Clinical Practice Guideline, Supplemental Table 4";
     units := "mg/dL";
     thresholds := list_to_map
       [(35, entry "35 weeks" 12 60); (36, entry "36 weeks" 13 60);
        (37, entry "37 weeks" 14 60); (38, entry "38 weeks or more" 15 60)]%Z |}.

Definition data : ReferenceData :=
  {| phototherapyNoRiskData := phototherapyNoRiskTable;
     phototherapyWithRiskData := phototherapyWithRiskTable;
     exchangeNoRiskData := exchangeNoRiskTable;
     exchangeWithRiskData := exchangeWithRiskTable |}.

(** A table with one bucket whose plateau starts at hour 30 and whose
    hour-24 value is missing. *)
Definition tableMissingHour24 : AapReferenceTable :=
  {| title := "Phototherapy Thresholds With Neurotoxicity Risk Factors";
     description := "A bucket without its hour-24 entry";
     source := "test fixture";
     units := "mg/dL";
     thresholds := list_to_map
       [(38, {| ga_description := "38 weeks or more";
                plateauHour := Num 30;
                plateauValue := Num 9;
                values := delete 24%Z (hourly 6 30) |})]%Z |}.

End Sample.

(* ================================================================== *)
(** ** Vocabulary of the specification *)
(* ================================================================== *)

(** The order of the extended rationals, stated independently of the
    boolean comparisons of [JS]; [NaN] is related to nothing. *)
Definition Lt (a b : number) : Prop :=
  match a, b with
  | Num x, Num y => (x < y)%Q
  | NegInfinity, Num _ | NegInfinity, Infinity | Num _, Infinity => True
  | _, _ => False
  end.

Definition Le (a b : number) : Prop :=
  match a, b with
  | Num x, Num y => (x <= y)%Q
  | NegInfinity, NegInfinity | NegInfinity, Num _ | NegInfinity, Infinity => True
  | Num _, Infinity | Infinity, Infinity => True
  | _, _ => False
  end.

(** [gap] lies in [(minDifference, maxDifference]]. *)
Definition in_difference_band (gap : number) (rule : FollowUpRule) : Prop :=
  Lt (minDifference rule) gap ∧ Le gap (maxDifference rule).

(** [ageHours] lies in the age window of the rule: at or above the lower
    bound, strictly below the upper bound, a missing bound unconstrained. *)
Definition in_age_window (ageHours : number) (rule : FollowUpRule) : Prop :=
  (∀ lo, minHours (ageCondition rule) = Some lo → Le lo ageHours) ∧
  (∀ hi, maxHours (ageCondition rule) = Some hi → Lt ageHours hi).

Definition rule_applies (gap ageHours : number) (rule : FollowUpRule) : Prop :=
  in_difference_band gap rule ∧ in_age_window ageHours rule.

(** [x] is the first element of [l], in the order of [l], that satisfies
    [P]. *)
Definition first_in_order {A} (P : A → Prop) (l : list A) (x : A) : Prop :=
  ∃ pre post, l = pre ++ x :: post ∧ Forall (λ y, ¬ P y) pre ∧ P x.

(** The ages and the band boundaries sampled by the coverage property. *)
Definition sampledAgeHours : list number :=
  [Num 23; Num 24; Num 71; Num 72; Num 400].

Definition upperBoundaries : list number :=
  [Num 2.0; Num 3.5; Num 5.5; Num 7.0].

(** A table read from JSON holds no [NaN]. *)
Definition json_entry (threshold : GestationalAgeThreshold) : Prop :=
  isNaN (plateauValue threshold) = false ∧
  map_Forall (λ _ value, isNaN value = false) (values threshold).

Definition json_table (table : AapReferenceTable) : Prop :=
  map_Forall (λ _ threshold, json_entry threshold) (thresholds table).

Definition json_data (data : ReferenceData) : Prop :=
  json_table (phototherapyNoRiskData data) ∧
  json_table (phototherapyWithRiskData data) ∧
  json_table (exchangeNoRiskData data) ∧
  json_table (exchangeWithRiskData data).

(** The input lies outside the range the calculator is validated for. *)
Definition out_of_range (input : HyperbiliRiskInput) : bool :=
  (gestationalAge input <? Num 35)%js || (gestationalAge input >? Num 42)%js ||
  (currentAgeHours input <? Num 1)%js || (currentAgeHours input >? Num 336)%js ||
  (currentTSB input <? Num 0)%js || (currentTSB input >? Num 30)%js.

(** The errors of the six range checks. *)
Inductive input_range_error : error → Prop :=
  | range_ga_low g : input_range_error (InvalidInputError (GestationalAgeBelowMinimum g))
  | range_ga_high g : input_range_error (InvalidInputError (GestationalAgeExceedsMaximum g))
  | range_age_low h : input_range_error (InvalidInputError (AgeBelowMinimum h))
  | range_age_high h : input_range_error (InvalidInputError (AgeExceedsMaximum h))
  | range_tsb_low b : input_range_error (InvalidInputError (TSBCannotBeNegative b))
  | range_tsb_high b : input_range_error (InvalidInputError (TSBExceedsMaximum b)).

(** The errors of the table loader, the key resolver and the lookup. *)
Inductive data_integrity_error : error → Prop :=
  | integrity_load name m : data_integrity_error (InternalError (FailedToLoad name m))
  | integrity_table name : data_integrity_error (DataNotAvailableError (TableNotFound name))
  | integrity_key g keys :
      data_integrity_error (InvalidInputError (UnableToDetermineKey g keys))
  | integrity_bucket g k : data_integrity_error (DataNotAvailableError (NoThresholdData g k))
  | integrity_hour h k :
      data_integrity_error (DataNotAvailableError (NoThresholdValueForHour h k)).

(** The part of [assessHyperbiliRisk] that follows the validation. *)
Definition tableDrivenAssessment (data : ReferenceData) (input : HyperbiliRiskInput)
    : result HyperbiliRiskResult :=
  HyperbiliRiskUnvalidated.assessHyperbiliRisk data input.

(** The input with its [riskFactors] field replaced. *)
Definition with_riskFactors (input : HyperbiliRiskInput)
    (rf : option (list string)) : HyperbiliRiskInput :=
  {| gestationalAge := gestationalAge input;
     currentAgeHours := currentAgeHours input;
     currentTSB := currentTSB input;
     riskFactors := rf |}.

(* ================================================================== *)
(** ** Structural invariants of the reference data *)
(* ================================================================== *)
(** The bucket keys of a table leave no gap: every integer between two keys
    is a key. *)
Definition contiguous_keys (table : AapReferenceTable) : Prop :=
  ∀ lo hi z : Z,
    is_Some (thresholds table !! lo) → is_Some (thresholds table !! hi) →
    (lo ≤ z ≤ hi)%Z → is_Some (thresholds table !! z).

(** A bucket holds a value at every hour of the lookup domain 1..336 that
    lies before its plateau hour. *)
Definition hours_complete (threshold : GestationalAgeThreshold) : Prop :=
  ∀ h : Z, (1 ≤ h ≤ 336)%Z →
    Lt (Num (inject_Z h)) (plateauHour threshold) →
    is_Some (values threshold !! h).

(** The structural invariants of a reference table: contiguous bucket keys
    that include the 38-week bucket, and in every bucket a numeric plateau
    hour and a value at every hour before it. *)
Definition well_formed_table (table : AapReferenceTable) : Prop :=
  is_Some (thresholds table !! 38%Z) ∧
  contiguous_keys table ∧
  ∀ k threshold, thresholds table !! k = Some threshold →
    isNaN (plateauHour threshold) = false ∧ hours_complete threshold.

(** Reference data that loads and whose four tables are well formed. *)
Definition well_formed_data (data : ReferenceData) : Prop :=
  (∃ tables, loadAllReferenceTables data = inr tables) ∧
  well_formed_table (phototherapyNoRiskData data) ∧
  well_formed_table (phototherapyWithRiskData data) ∧
  well_formed_table (exchangeNoRiskData data) ∧
  well_formed_table (exchangeWithRiskData data).


(** A field of the input passes its two range checks: it lies in the closed
    range, or it is [NaN], which no comparison rejects. *)
Definition passes_range_check (lo hi x : number) : Prop :=
  isNaN x = true ∨ (Le lo x ∧ Le x hi).

(** Two assessment results that agree on everything but the list of the
    risk factors present. *)
Definition same_but_presentRiskFactors (r1 r2 : HyperbiliRiskResult) : Prop :=
  res_currentTSB r1 = res_currentTSB r2 ∧
  res_thresholds r1 = res_thresholds r2 ∧
  clinicalStatus r1 = clinicalStatus r2 ∧
  thresholdDifferences r1 = thresholdDifferences r2 ∧
  clinicalGuidance r1 = clinicalGuidance r2 ∧
  hasNeurotoxicityRiskFactors (assessmentContext r1) =
    hasNeurotoxicityRiskFactors (assessmentContext r2) ∧
  aapFigureUsed (assessmentContext r1) = aapFigureUsed (assessmentContext r2) ∧
  ctx_ageHours (assessmentContext r1) = ctx_ageHours (assessmentContext r2) ∧
  ctx_gestationalAgeWeeks (assessmentContext r1) =
    ctx_gestationalAgeWeeks (assessmentContext r2).

(* ================================================================== *)
(** ** utils/error-handling.ts: the error objects *)
(* ================================================================== *)

(** The error classes as objects, for [isCalculatorError] and [ensureError],
    which look at the class, the message and the context of what was thrown.
    [V] is the type of the context values and [U] the type of the thrown
    values that are not [Error] instances, printed by [String_of]. *)
Module ErrorObjects.
Section ErrorObjects.
Context {V U : Type} (String_of : U → string).

(** The concrete subclasses of [BaseCalculatorError], by their [name]. *)
Inductive ErrorName : Type :=
  | InvalidInputErrorName
  | DataNotAvailableErrorName
  | CalculationErrorName
  | ExtractionErrorName
  | InternalErrorName.

(** An instance of a subclass of [BaseCalculatorError]. *)
Record BaseCalculatorError : Type := {
  name : ErrorName;
  message : string;
  context : option (gmap string V)      (* [None] is [undefined] *)
}.

(** A value of type [unknown] as [ensureError] distinguishes it. *)
Inductive unknown : Type :=
  | CalculatorErrorValue (e : BaseCalculatorError)
  | PlainErrorValue (message : string)     (* an [Error] of no calculator class *)
  | OtherValue (u : U).                    (* not an [Error] instance *)

(** An [Error] instance. *)
Inductive Error : Type :=
  | CalculatorError (e : BaseCalculatorError)
  | PlainError (message : string).

Definition Error_as_unknown (e : Error) : unknown :=
  match e with
  | CalculatorError e => CalculatorErrorValue e
  | PlainError m => PlainErrorValue m
  end.

Definition createInvalidInputError (message : string)
    (context : option (gmap string V)) : BaseCalculatorError :=
  {| name := InvalidInputErrorName; message := message; context := context |}.

Definition isCalculatorError (error : unknown) : bool :=
  match error with
  | CalculatorErrorValue _ => true
  | _ => false
  end.

(** [{ ...a, ...b }]: the properties of [b] win; spreading [undefined] adds
    nothing. *)
Definition spread (a : option (gmap string V)) (b : gmap string V)
    : gmap string V :=
  b ∪ default ∅ a.

Definition ensureError (error : unknown) (context : option (gmap string V))
    : Error :=
  match error with
  | CalculatorErrorValue e =>
      (* [isCalculatorError(error) && context]: an object is truthy *)
      match context with
      | Some c =>
          CalculatorError {| name := InternalErrorName;
                             message := message e;
                             context := Some (spread (ErrorObjects.context e) c) |}
      | None => CalculatorError e
      end
  | PlainErrorValue m => PlainError m
  | OtherValue u =>
      CalculatorError {| name := InternalErrorName;
                         message := String_of u;
                         context := context |}
  end.

End ErrorObjects.
End ErrorObjects.

(* ================================================================== *)
(** ** Numbers *)
(* ================================================================== *)

Lemma num_lt_Lt a b : (a <? b)%js = true ↔ Lt a b.
Proof.
  destruct a as [| |x|], b as [| |y|]; simpl; try (split; [discriminate|tauto]);
    try tauto.
  rewrite negb_true_iff. split.
  - intros E. apply Qnot_le_lt. intros H. apply Qle_bool_iff in H. congruence.
  - intros H. destruct (Qle_bool y x) eqn:E; [|done].
    apply Qle_bool_iff in E. lra.
Qed.

Lemma num_le_Le a b : (a <=? b)%js = true ↔ Le a b.
Proof.
  destruct a as [| |x|], b as [| |y|]; simpl; try (split; [discriminate|tauto]);
    try tauto.
  apply Qle_bool_iff.
Qed.

Lemma num_gt_Lt a b : (a >? b)%js = true ↔ Lt b a.
Proof. apply num_lt_Lt. Qed.

Lemma num_ge_Le a b : (a >=? b)%js = true ↔ Le b a.
Proof. apply num_le_Le. Qed.

Lemma Lt_not_Le a b : Lt a b → ¬ Le b a.
Proof. destruct a, b; simpl; try tauto. lra. Qed.

Lemma num_lt_not_ge a b : (a <? b)%js = true → (a >=? b)%js = false.
Proof.
  intros H%num_lt_Lt. destruct (a >=? b)%js eqn:E; [|done].
  apply num_ge_Le in E. by apply Lt_not_Le in H.
Qed.

Lemma Le_refl a : isNaN a = false → Le a a.
Proof. destruct a; simpl; try done. lra. Qed.

(** Subtracting a non-negative finite offset never raises a number. *)
Lemma Le_sub_offset a c : isNaN a = false → (0 <= c)%Q → Le (a - Num c)%js a.
Proof. destruct a; simpl; try done. lra. Qed.

(* ================================================================== *)
(** ** Ordered search *)
(* ================================================================== *)

Section Find.
Context {A : Type} (f : A → bool).

Lemma find_first_in_order l x :
  first_in_order (λ y, f y = true) l x → find f l = Some x.
Proof.
  intros (pre & post & -> & Hpre & Hx).
  induction Hpre as [|y pre Hy _ IH]; simpl.
  - by rewrite Hx.
  - by destruct (f y).
Qed.

Lemma find_Some_first_in_order l x :
  find f l = Some x → first_in_order (λ y, f y = true) l x.
Proof.
  induction l as [|y l IH]; simpl; [done|].
  destruct (f y) eqn:E.
  - intros [= ->]. by exists [], l.
  - intros (pre & post & -> & Hpre & Hx)%IH.
    exists (y :: pre), post. split_and!; [done| |done].
    constructor; [congruence|done].
Qed.

Lemma find_None_iff l : find f l = None ↔ ∀ x, x ∈ l → f x = false.
Proof.
  induction l as [|y l IH]; simpl.
  - split; [|done]. intros _ x Hx. by apply elem_of_nil in Hx.
  - destruct (f y) eqn:E.
    + split; [done|]. intros H. specialize (H y). rewrite E in H.
      discriminate H. by left.
    + rewrite IH. split.
      * intros H x [->|Hx]%elem_of_cons; auto.
      * intros H x Hx. apply H. by right.
Qed.
End Find.

Lemma first_in_order_iff {A} (P Q : A → Prop) l x :
  (∀ y, P y ↔ Q y) → first_in_order P l x → first_in_order Q l x.
Proof.
  intros HPQ (pre & post & -> & Hpre & Hx). exists pre, post.
  split_and!; [done| |by apply HPQ].
  eapply Forall_impl; [exact Hpre|]. intros y Hy HQ. by apply Hy, HPQ.
Qed.

(* ================================================================== *)
(** ** Follow-up rules *)
(* ================================================================== *)

(** The predicate given to [find] decides [rule_applies]. *)
Lemma rule_matches_applies gap ageHours rule :
  rule_matches gap ageHours rule = true ↔ rule_applies gap ageHours rule.
Proof.
  unfold rule_matches, rule_applies, in_difference_band, in_age_window.
  rewrite !andb_true_iff, num_gt_Lt, num_le_Le.
  destruct (minHours (ageCondition rule)) as [lo|],
           (maxHours (ageCondition rule)) as [hi|];
    rewrite ?num_ge_Le, ?num_lt_Lt; split.
  all: try (intros [[??] [??]]; split_and!; try done; by intros ? [= <-]).
  all: intros [[??] [Hlo Hhi]]; split_and!; auto.
Qed.

Lemma rule_matches_false gap ageHours rule :
  rule_matches gap ageHours rule = false ↔ ¬ rule_applies gap ageHours rule.
Proof.
  rewrite <- rule_matches_applies. by destruct (rule_matches gap ageHours rule).
Qed.

(** A positive difference is not caught by the sentinel test. *)
Lemma positive_not_le_0 gap : Lt (Num 0) gap → (gap <=? Num 0)%js = false.
Proof.
  intros H. destruct (gap <=? Num 0)%js eqn:E; [|done].
  apply num_le_Le in E. by apply Lt_not_Le in H.
Qed.

(** C8. For a positive gap the matcher returns the first rule of the catalog,
    in catalog order, whose band [(minDifference, maxDifference]] contains
    the gap and whose age window (lower bound inclusive, upper bound
    exclusive, a missing bound unconstrained) contains [ageHours]; when no
    rule of the catalog applies it returns the clinical-judgment fallback
    rule. One of the two cases always holds: the matcher is a total function
    and never raises. *)
Theorem C8_first_matching_rule_or_fallback (gap ageHours : number) :
  Lt (Num 0) gap →
  (∀ rule,
     first_in_order (rule_applies gap ageHours) HYPERBILI_FOLLOW_UP_RULES rule →
     findFollowUpRule gap ageHours = rule) ∧
  ((∀ rule, rule ∈ HYPERBILI_FOLLOW_UP_RULES → ¬ rule_applies gap ageHours rule) →
     findFollowUpRule gap ageHours = rule_fallback ∧
     recommendation (findFollowUpRule gap ageHours) =
       "Clinical judgment - consult AAP guidelines") ∧
  ((∃ rule,
      first_in_order (rule_applies gap ageHours) HYPERBILI_FOLLOW_UP_RULES rule) ∨
   (∀ rule, rule ∈ HYPERBILI_FOLLOW_UP_RULES → ¬ rule_applies gap ageHours rule)).
Proof.
  intros Hpos. unfold findFollowUpRule. rewrite (positive_not_le_0 _ Hpos).
  split_and!.
  - intros rule Hfirst.
    eapply first_in_order_iff in Hfirst;
      [|intros y; symmetry; apply rule_matches_applies].
    by rewrite (find_first_in_order _ _ _ Hfirst).
  - intros Hnone.
    assert (find (rule_matches gap ageHours) HYPERBILI_FOLLOW_UP_RULES = None) as ->.
    { apply find_None_iff. intros rule Hin. by apply rule_matches_false, Hnone. }
    done.
  - destruct (find (rule_matches gap ageHours) HYPERBILI_FOLLOW_UP_RULES)
      as [rule|] eqn:E.
    + left. exists rule. apply find_Some_first_in_order in E.
      eapply first_in_order_iff; [|exact E]. intros y. apply rule_matches_applies.
    + right. intros rule Hin. apply rule_matches_false.
      by eapply find_None_iff in E.
Qed.

Lemma C8_witness :
  Lt (Num 0) (Num 1) ∧
  findFollowUpRule (Num 1) (Num 48) = rule_1b ∧
  findFollowUpRule (Num 0.05) (Num 48) = rule_fallback.
Proof.
  split; [reflexivity|]. split.
  - apply (C8_first_matching_rule_or_fallback (Num 1) (Num 48)); [reflexivity|].
    exists [rule_1a], [rule_2; rule_3; rule_4a; rule_4b; rule_5a; rule_5b].
    split_and!; [reflexivity| |].
    + constructor; [|constructor]. intros H%rule_matches_applies. discriminate H.
    + apply rule_matches_applies. reflexivity.
  - apply (C8_first_matching_rule_or_fallback (Num 0.05) (Num 48)); [reflexivity|].
    intros rule Hin H%rule_matches_applies. revert H.
    repeat (apply elem_of_cons in Hin as [->|Hin]; [by vm_compute|]).
    by apply elem_of_nil in Hin.
Defined.

(** Case analysis on the comparison of [q] with a band boundary [c], keeping
    the boolean fact for rewriting and the order fact for [lra]. *)
Ltac compare_with q c :=
  let E := fresh "E" in
  let H := fresh "H" in
  destruct (Qle_bool q c) eqn:E;
  [ assert (H : (q <= c)%Q) by (by apply Qle_bool_iff)
  | assert (H : ¬ (q <= c)%Q) by (rewrite <- Qle_bool_iff; congruence) ].

(** Evaluate the leftmost [rule_matches (Num q) a r] of the goal from the
    comparisons of [q] recorded in the context. *)
Ltac eval_rule_matches q :=
  match goal with
  | |- context [rule_matches (Num q) ?a ?r] =>
      let b := fresh "b" in
      let Hb := fresh "Hb" in
      evar (b : bool);
      assert (Hb : rule_matches (Num q) a r = b)
        by (subst b; cbv -[Qle_bool];
            repeat match goal with
                   | E : Qle_bool q ?c = _ |- context [Qle_bool q ?c] => rewrite E
                   end;
            vm_compute; reflexivity);
      subst b; rewrite Hb; clear Hb
  end.

(** A gap equal to a sampled boundary lies in the band that boundary
    closes. *)
Ltac decide_boundaries :=
  let b := fresh "b" in
  let Hb := fresh "Hb" in
  let Heq := fresh "Heq" in
  intros b Hb Heq; unfold upperBoundaries in Hb;
  repeat (apply elem_of_cons in Hb as [->|Hb]);
  [..|by apply elem_of_nil in Hb];
  simpl in Heq; apply Qeq_bool_eq in Heq;
  first [reflexivity | exfalso; lra].

Lemma coverage_finite (q : Q) (ageHours : number) :
  ¬ (q <= 0.1)%Q →
  ageHours ∈ sampledAgeHours →
  ∃ rule,
    List.filter (rule_matches (Num q) ageHours) HYPERBILI_FOLLOW_UP_RULES = [rule] ∧
    (∀ b, b ∈ upperBoundaries → sameValueZero (Num q) b = true →
          sameValueZero (maxDifference rule) b = true).
Proof.
  intros Hq Hage.
  assert (E0 : Qle_bool q 0.1 = false).
  { apply not_true_iff_false. by rewrite Qle_bool_iff. }
  compare_with q 2.0; compare_with q 3.5; compare_with q 5.5; compare_with q 7.0;
    try (exfalso; lra).
  all: unfold sampledAgeHours in Hage;
    repeat (apply elem_of_cons in Hage as [->|Hage]);
    [..|by apply elem_of_nil in Hage].
  all: unfold HYPERBILI_FOLLOW_UP_RULES; cbn [List.filter];
    repeat eval_rule_matches q.
  all: eexists; split; [reflexivity|decide_boundaries].
Qed.

Lemma coverage_infinite (ageHours : number) :
  ageHours ∈ sampledAgeHours →
  ∃ rule,
    List.filter (rule_matches Infinity ageHours) HYPERBILI_FOLLOW_UP_RULES = [rule] ∧
    (∀ b, b ∈ upperBoundaries → sameValueZero Infinity b = true →
          sameValueZero (maxDifference rule) b = true).
Proof.
  intros Hage. unfold sampledAgeHours in Hage.
  repeat (apply elem_of_cons in Hage as [->|Hage]);
    [..|by apply elem_of_nil in Hage].
  all: eexists; split; [vm_compute; reflexivity|].
  all: intros b Hb Heq; unfold upperBoundaries in Hb;
    repeat (apply elem_of_cons in Hb as [->|Hb]);
    [..|by apply elem_of_nil in Hb]; discriminate Heq.
Qed.

Lemma find_filter_singleton {A} (f : A → bool) l x :
  List.filter f l = [x] → find f l = Some x ∧ x ∈ l.
Proof.
  induction l as [|y l IH]; simpl; [done|].
  destruct (f y) eqn:E.
  - intros [= -> _]. split; [done|by left].
  - intros [? ?]%IH. split; [done|by right].
Qed.

Lemma catalog_rule_not_fallback rule :
  rule ∈ HYPERBILI_FOLLOW_UP_RULES → rule ≠ rule_fallback.
Proof.
  intros Hin ->. unfold HYPERBILI_FOLLOW_UP_RULES in Hin.
  repeat (apply elem_of_cons in Hin as [Heq|Hin]; [discriminate Heq|]).
  by apply elem_of_nil in Hin.
Qed.

(** C3, as the code has it. For every gap above 0.1 (in particular at the
    boundaries 2.0, 3.5, 5.5 and 7.0, and above 7.0) and every [ageHours]
    among 23, 24, 71, 72 and 400, exactly one rule of the catalog matches,
    [findFollowUpRule] returns it, it is not the fallback rule, and a gap
    equal to one of the boundaries 2.0, 3.5, 5.5, 7.0 gets the rule whose
    inclusive upper bound is that boundary. *)
Theorem C3_coverage_above_first_band_bound (gap ageHours : number) :
  (gap >? Num 0.1)%js = true →
  ageHours ∈ sampledAgeHours →
  let rule := findFollowUpRule gap ageHours in
  List.filter (rule_matches gap ageHours) HYPERBILI_FOLLOW_UP_RULES = [rule] ∧
  rule ∈ HYPERBILI_FOLLOW_UP_RULES ∧
  rule ≠ rule_fallback ∧
  (∀ b, b ∈ upperBoundaries → sameValueZero gap b = true →
        sameValueZero (maxDifference rule) b = true).
Proof.
  intros Hgap Hage.
  assert (∃ rule,
    List.filter (rule_matches gap ageHours) HYPERBILI_FOLLOW_UP_RULES = [rule] ∧
    (∀ b, b ∈ upperBoundaries → sameValueZero gap b = true →
          sameValueZero (maxDifference rule) b = true)) as (rule & Hfilter & Hbound).
  { apply num_gt_Lt in Hgap. destruct gap as [| |q|]; simpl in Hgap; try done.
    - apply coverage_finite; [lra|done].
    - by apply coverage_infinite. }
  destruct (find_filter_singleton _ _ _ Hfilter) as [Hfind Hin].
  assert (findFollowUpRule gap ageHours = rule) as Hrule.
  { unfold findFollowUpRule. rewrite positive_not_le_0, Hfind; [done|].
    apply num_gt_Lt in Hgap. destruct gap; simpl in *; try done. lra. }
  simpl. rewrite Hrule. split_and!; auto using catalog_rule_not_fallback.
Qed.

Lemma C3_witness :
  (Num 2.0 >? Num 0.1)%js = true ∧
  Num 23 ∈ sampledAgeHours ∧
  findFollowUpRule (Num 2.0) (Num 23) = rule_1a ∧
  List.filter (rule_matches (Num 2.0) (Num 23)) HYPERBILI_FOLLOW_UP_RULES =
    [findFollowUpRule (Num 2.0) (Num 23)] ∧
  findFollowUpRule (Num 2.0) (Num 23) ≠ rule_fallback.
Proof.
  assert (Hage : Num 23 ∈ sampledAgeHours) by (by left).
  split_and!; [reflexivity|exact Hage|reflexivity|..];
    by apply (C3_coverage_above_first_band_bound (Num 2.0) (Num 23) eq_refl Hage).
Defined.

(** C3, as stated, fails below the first band: a gap in (0, 0.1) and the gap
    0.1 itself match no rule of the catalog and get the fallback rule. *)
Lemma C3_counterexample :
  Num 24 ∈ sampledAgeHours ∧
  Lt (Num 0) (Num 0.05) ∧ Lt (Num 0.05) (Num 0.1) ∧
  findFollowUpRule (Num 0.05) (Num 24) = rule_fallback ∧
  List.filter (rule_matches (Num 0.05) (Num 24)) HYPERBILI_FOLLOW_UP_RULES = [] ∧
  findFollowUpRule (Num 0.1) (Num 24) = rule_fallback ∧
  List.filter (rule_matches (Num 0.1) (Num 24)) HYPERBILI_FOLLOW_UP_RULES = [].
Proof.
  split_and!; try reflexivity. right. by left.
Qed.

(* ================================================================== *)
(** ** Immediate action and clinical status *)
(* ================================================================== *)

(** C6. The immediate action is chosen top-down, first match wins: the
    exchange-transfusion action iff the measurement reaches the exchange
    threshold; otherwise the intensive-phototherapy action iff it reaches the
    escalation threshold; otherwise the phototherapy action iff it reaches
    the phototherapy threshold; otherwise the no-phototherapy message. *)
Theorem C6_immediate_action_top_down
    (bilirubinMgDl : number) (thresholds : AapBilirubinThresholds) :
  let action := determineAapClinicalAction bilirubinMgDl thresholds in
  let exchange := (bilirubinMgDl >=? exchangeTransfusion thresholds)%js in
  let escalation := (bilirubinMgDl >=? escalationOfCare thresholds)%js in
  let photo := (bilirubinMgDl >=? phototherapy thresholds)%js in
  (action = "Begin exchange transfusion" ↔ exchange = true) ∧
  (action = "Begin intensive phototherapy and prepare for exchange transfusion" ↔
     exchange = false ∧ escalation = true) ∧
  (action = "Begin phototherapy" ↔
     exchange = false ∧ escalation = false ∧ photo = true) ∧
  (action = "No phototherapy required" ↔
     exchange = false ∧ escalation = false ∧ photo = false).
Proof.
  unfold determineAapClinicalAction.
  destruct (bilirubinMgDl >=? exchangeTransfusion thresholds)%js,
           (bilirubinMgDl >=? escalationOfCare thresholds)%js,
           (bilirubinMgDl >=? phototherapy thresholds)%js; simpl.
  all: split_and!; split; try done; intros H; try discriminate H.
  all: destruct H as [? H]; try discriminate; destruct H; discriminate.
Qed.

(** C7. Each of the four flags is the non-strict comparison of the
    measurement with its threshold, on the values as given: the flag is set
    exactly when the threshold is at most the measurement, so a measurement
    equal to the threshold sets it. *)
Theorem C7_status_flags_are_inclusive_comparisons
    (bilirubinMgDl : number) (thresholds : AapBilirubinThresholds) :
  let status := assessClinicalStatus bilirubinMgDl thresholds in
  (requiresPhototherapy status = (bilirubinMgDl >=? phototherapy thresholds)%js ∧
   requiresIntensivePhototherapy status =
     (bilirubinMgDl >=? escalationOfCare thresholds)%js ∧
   requiresExchangeTransfusion status =
     (bilirubinMgDl >=? exchangeTransfusion thresholds)%js ∧
   requiresSerumConfirmationForTcB status =
     (bilirubinMgDl >=? transcutaneousBilirubinConfirmation thresholds)%js) ∧
  ((requiresPhototherapy status = true ↔
      Le (phototherapy thresholds) bilirubinMgDl) ∧
   (requiresIntensivePhototherapy status = true ↔
      Le (escalationOfCare thresholds) bilirubinMgDl) ∧
   (requiresExchangeTransfusion status = true ↔
      Le (exchangeTransfusion thresholds) bilirubinMgDl) ∧
   (requiresSerumConfirmationForTcB status = true ↔
      Le (transcutaneousBilirubinConfirmation thresholds) bilirubinMgDl)) ∧
  (isNaN bilirubinMgDl = false →
   (phototherapy thresholds = bilirubinMgDl → requiresPhototherapy status = true) ∧
   (escalationOfCare thresholds = bilirubinMgDl →
      requiresIntensivePhototherapy status = true) ∧
   (exchangeTransfusion thresholds = bilirubinMgDl →
      requiresExchangeTransfusion status = true) ∧
   (transcutaneousBilirubinConfirmation thresholds = bilirubinMgDl →
      requiresSerumConfirmationForTcB status = true)).
Proof.
  simpl. split_and!; try reflexivity; try apply num_ge_Le.
  intros Hnum. split_and!; intros ->; by apply num_ge_Le, Le_refl.
Qed.

Lemma C7_witness :
  isNaN (Num 12.5) = false ∧
  requiresPhototherapy
    (assessClinicalStatus (Num 12.5)
       {| phototherapy := Num 12.5; escalationOfCare := Num 19.5;
          exchangeTransfusion := Num 21.5;
          transcutaneousBilirubinConfirmation := Num 10.5 |}) = true.
Proof.
  split; [reflexivity|].
  pose proof (C7_status_flags_are_inclusive_comparisons (Num 12.5)
                {| phototherapy := Num 12.5; escalationOfCare := Num 19.5;
                   exchangeTransfusion := Num 21.5;
                   transcutaneousBilirubinConfirmation := Num 10.5 |})
    as (_ & _ & Hequal).
  destruct (Hequal eq_refl) as [Hphoto _]. by apply Hphoto.
Defined.

(* ================================================================== *)
(** ** Threshold lookup *)
(* ================================================================== *)

(** The clamped hour of a finite age is the integer
    [max 1 (min 336 (floor ageHours))]. *)
Lemma clampHours_Num q :
  ∃ c, clampHours (Num q) = Num c ∧
       (c == inject_Z (Z.max 1 (Z.min 336 (Qfloor q))))%Q.
Proof.
  unfold clampHours, Math_floor, Math_min2, Math_max2, num_ge, num_le.
  destruct (Qle_bool 336 (inject_Z (Qfloor q))) eqn:E1.
  - apply Qle_bool_iff in E1. change 336%Q with (inject_Z 336) in E1.
    rewrite <- Zle_Qle in E1. eexists; split; [reflexivity|].
    change 336%Q with (inject_Z 336). f_equiv. lia.
  - apply not_true_iff_false in E1. rewrite Qle_bool_iff in E1.
    change 336%Q with (inject_Z 336) in E1. rewrite <- Zle_Qle in E1.
    destruct (Qle_bool (inject_Z (Qfloor q)) 1) eqn:E2.
    + apply Qle_bool_iff in E2. change 1%Q with (inject_Z 1) in E2.
      rewrite <- Zle_Qle in E2. eexists; split; [reflexivity|].
      change 1%Q with (inject_Z 1). f_equiv. lia.
    + apply not_true_iff_false in E2. rewrite Qle_bool_iff in E2.
      change 1%Q with (inject_Z 1) in E2. rewrite <- Zle_Qle in E2.
      eexists; split; [reflexivity|]. f_equiv. lia.
Qed.

(** Reading a record with the string form of an integer reads its entry. *)
Lemma get_by_String_integer {A} (o : gmap Z A) (k : Z) :
  get_by_String o (Num (inject_Z k)) = o !! k.
Proof.
  unfold get_by_String. rewrite Qfloor_Z.
  by rewrite (proj2 (Qeq_bool_iff _ _) (Qeq_refl _)).
Qed.

Lemma get_by_String_Some {A} (o : gmap Z A) n x :
  get_by_String o n = Some x → ∃ k, o !! k = Some x.
Proof.
  destruct n as [| |q|]; simpl; try done.
  destruct (Qeq_bool q (inject_Z (Qfloor q))); [eauto|done].
Qed.

Section ResolvedBucket.
(** A table, a gestational age whose key resolves, and the bucket found
    under that key. *)
Variables (table : AapReferenceTable) (gestationalAge gaKey : number).
Variable threshold : GestationalAgeThreshold.
Hypothesis Hkey : determineGestationalAgeKey table gestationalAge = inr gaKey.
Hypothesis Hbucket : get_by_String (thresholds table) gaKey = Some threshold.

Lemma getThresholdValue_resolved ageHours :
  getThresholdValue table gestationalAge ageHours =
    if (clampHours ageHours >=? plateauHour threshold)%js then
      inr (plateauValue threshold)
    else
      match get_by_String (values threshold) (clampHours ageHours) with
      | None => inl (DataNotAvailableError
                       (NoThresholdValueForHour (clampHours ageHours) gaKey))
      | Some value => inr value
      end.
Proof. unfold getThresholdValue. rewrite Hkey. simpl. by rewrite Hbucket. Qed.

(** C5. Whenever the clamped, floored hour is at or beyond the plateau hour
    of the bucket the lookup returns exactly the plateau value; for a
    bucket whose plateau hour is an integer of the table domain 1..336 this
    is the case at [ageHours] = plateauHour, plateauHour + 50 and 336, which
    therefore all return the same plateau value. *)
Theorem C5_plateau_value_at_and_beyond_plateau_hour :
  (∀ ageHours,
     (clampHours ageHours >=? plateauHour threshold)%js = true →
     getThresholdValue table gestationalAge ageHours =
       inr (plateauValue threshold)) ∧
  (∀ (p : Z) (q : Q),
     plateauHour threshold = Num q → (q == inject_Z p)%Q → (1 ≤ p ≤ 336)%Z →
     getThresholdValue table gestationalAge (Num q) =
       inr (plateauValue threshold) ∧
     getThresholdValue table gestationalAge (Num (q + 50)) =
       inr (plateauValue threshold) ∧
     getThresholdValue table gestationalAge (Num 336) =
       inr (plateauValue threshold)).
Proof.
  assert (Hgeneral : ∀ ageHours,
     (clampHours ageHours >=? plateauHour threshold)%js = true →
     getThresholdValue table gestationalAge ageHours =
       inr (plateauValue threshold)).
  { intros ageHours Hge. by rewrite getThresholdValue_resolved, Hge. }
  split; [exact Hgeneral|].
  intros p q Hp Hq Hrange.
  assert (Hreach : ∀ a, (p ≤ Z.max 1 (Z.min 336 (Qfloor a)))%Z →
            (clampHours (Num a) >=? plateauHour threshold)%js = true).
  { intros a Ha. destruct (clampHours_Num a) as (c & -> & Hc).
    rewrite Hp. apply num_ge_Le. simpl. rewrite Hq, Hc. by rewrite <- Zle_Qle. }
  split_and!; apply Hgeneral, Hreach.
  - rewrite Hq, Qfloor_Z. lia.
  - assert (Qfloor (q + 50) = (p + 50)%Z) as ->; [|lia].
    rewrite Hq. change 50%Q with (inject_Z 50).
    by rewrite <- inject_Z_plus, Qfloor_Z.
  - change 336%Q with (inject_Z 336). rewrite Qfloor_Z. lia.
Qed.

(** C9. When the clamped hour lies strictly below the plateau hour and the
    bucket has no value at that hour, the lookup fails with a
    data-not-available error and returns no value at all. *)
Theorem C9_missing_hour_is_data_not_available (ageHours : number) :
  (clampHours ageHours <? plateauHour threshold)%js = true →
  get_by_String (values threshold) (clampHours ageHours) = None →
  getThresholdValue table gestationalAge ageHours =
    inl (DataNotAvailableError
           (NoThresholdValueForHour (clampHours ageHours) gaKey)) ∧
  (∀ value, getThresholdValue table gestationalAge ageHours ≠ inr value).
Proof.
  intros Hbelow Hmissing.
  rewrite getThresholdValue_resolved, (num_lt_not_ge _ _ Hbelow), Hmissing.
  by split.
Qed.
End ResolvedBucket.

Lemma C5_witness :
  let bucket := Sample.entry "37 weeks" 7 96 in
  determineGestationalAgeKey Sample.phototherapyNoRiskTable (Num 37) = inr (Num 37) ∧
  get_by_String (thresholds Sample.phototherapyNoRiskTable) (Num 37) = Some bucket ∧
  plateauHour bucket = Num 96 ∧
  getThresholdValue Sample.phototherapyNoRiskTable (Num 37) (Num 96) =
    inr (plateauValue bucket) ∧
  getThresholdValue Sample.phototherapyNoRiskTable (Num 37) (Num (96 + 50)) =
    inr (plateauValue bucket) ∧
  getThresholdValue Sample.phototherapyNoRiskTable (Num 37) (Num 336) =
    inr (plateauValue bucket).
Proof.
  intros bucket. split_and!; [reflexivity..| | |].
  all: by apply (proj2 (C5_plateau_value_at_and_beyond_plateau_hour
                   Sample.phototherapyNoRiskTable (Num 37) (Num 37) bucket
                   eq_refl eq_refl) 96%Z 96%Q eq_refl).
Defined.

Lemma C9_witness :
  let bucket :=
    {| ga_description := "38 weeks or more"; plateauHour := Num 30;
       plateauValue := Num 9; values := delete 24%Z (Sample.hourly 6 30) |} in
  determineGestationalAgeKey Sample.tableMissingHour24 (Num 38) = inr (Num 38) ∧
  get_by_String (thresholds Sample.tableMissingHour24) (Num 38) = Some bucket ∧
  clampHours (Num 24) = Num 24 ∧
  values bucket !! 24%Z = None ∧
  is_Some (values bucket !! 23%Z) ∧
  is_Some (values bucket !! 25%Z) ∧
  getThresholdValue Sample.tableMissingHour24 (Num 38) (Num 24) =
    inl (DataNotAvailableError (NoThresholdValueForHour (Num 24) (Num 38))).
Proof.
  intros bucket. split_and!; [reflexivity..| | |]; [by eexists..|].
  by apply (C9_missing_hour_is_data_not_available
              Sample.tableMissingHour24 (Num 38) (Num 38) bucket
              eq_refl eq_refl (Num 24) eq_refl eq_refl).
Defined.

(* ================================================================== *)
(** ** Gestational-age key resolution *)
(* ================================================================== *)

Lemma prefix_app_l (s1 s2 s : string) :
  String.prefix (s1 +:+ s2) s = true → String.prefix s1 s = true.
Proof.
  revert s. induction s1 as [|a s1 IH]; intros [|b s]; simpl; try done.
  destruct (Ascii.ascii_dec a b); [apply IH|done].
Qed.

(** A string that contains [sub ++ rest] contains [sub]. *)
Lemma String_includes_app_l (s sub rest : string) :
  String_includes s (sub +:+ rest) = true → String_includes s sub = true.
Proof.
  induction s as [|a s IH]; cbn [String_includes].
  - rewrite !orb_false_r. apply prefix_app_l.
  - rewrite !orb_true_iff. intros [H|H]; [left; by eapply prefix_app_l|right; auto].
Qed.

(** Every title with the word "Without" passes the test for "With". *)
Lemma String_includes_Without_With (s : string) :
  String_includes s "Without" = true → String_includes s "With" = true.
Proof. apply (String_includes_app_l s "With" "out"). Qed.

(** C2, as the code has it. On a table whose title carries "Without" and
    "Phototherapy" (the phototherapy table without risk factors) every
    gestational age from 38 up to, but not including, 40 resolves to the
    38-week key: the 38-week grouping written for the table with risk factors
    fires, whether or not a bucket exists at the floored age. *)
Theorem C2_no_risk_phototherapy_grouped_at_38
    (table : AapReferenceTable) (gestationalAge : number) :
  String_includes (title table) "Without" = true →
  String_includes (title table) "Phototherapy" = true →
  Le (Num 38) gestationalAge →
  Lt gestationalAge (Num 40) →
  determineGestationalAgeKey table gestationalAge = inr (Num 38).
Proof.
  intros Hwithout Hphoto H38 H40. unfold determineGestationalAgeKey.
  rewrite Hwithout, (String_includes_Without_With _ Hwithout), Hphoto.
  rewrite (proj2 (num_ge_Le _ _) H38).
  assert ((gestationalAge >=? Num 40)%js = false) as ->; [|by rewrite andb_false_r].
  apply num_lt_not_ge. by apply num_lt_Lt.
Qed.

Lemma C2_witness :
  String_includes (title Sample.phototherapyNoRiskTable) "Without" = true ∧
  String_includes (title Sample.phototherapyNoRiskTable) "Phototherapy" = true ∧
  Le (Num 38) (Num 39) ∧ Lt (Num 39) (Num 40) ∧
  Math_floor (Num 39) = Num 39 ∧
  is_Some (thresholds Sample.phototherapyNoRiskTable !! 39%Z) ∧
  determineGestationalAgeKey Sample.phototherapyNoRiskTable (Num 39) = inr (Num 38).
Proof.
  assert (H38 : Le (Num 38) (Num 39)) by (by vm_compute).
  assert (H40 : Lt (Num 39) (Num 40)) by (by vm_compute).
  split_and!; [reflexivity|reflexivity|exact H38|exact H40|reflexivity|by eexists|].
  exact (C2_no_risk_phototherapy_grouped_at_38
           Sample.phototherapyNoRiskTable (Num 39) eq_refl eq_refl H38 H40).
Defined.

(* ================================================================== *)
(** ** Threshold derivation *)
(* ================================================================== *)

Lemma loadReferenceTable_inr data name table :
  loadReferenceTable data name = inr table →
  REFERENCE_TABLES data !! name = Some table.
Proof.
  unfold loadReferenceTable.
  destruct (REFERENCE_TABLES data !! name) as [t|]; [|done].
  destruct (validateTableStructure t name); [done|]. by intros [= ->].
Qed.

(** What is loaded is the imported data, unchanged. *)
Lemma loadAllReferenceTables_inr data tables :
  loadAllReferenceTables data = inr tables →
  phototherapyNoRisk tables = phototherapyNoRiskData data ∧
  phototherapyWithRisk tables = phototherapyWithRiskData data ∧
  exchangeNoRisk tables = exchangeNoRiskData data ∧
  exchangeWithRisk tables = exchangeWithRiskData data.
Proof.
  unfold loadAllReferenceTables, bind, ret.
  destruct (loadReferenceTable data "supplemental-table-1-phototherapy-no-risk")
    as [|t1] eqn:E1; [done|].
  destruct (loadReferenceTable data "supplemental-table-2-phototherapy-with-risk")
    as [|t2] eqn:E2; [done|].
  destruct (loadReferenceTable data "supplemental-table-3-exchange-no-risk")
    as [|t3] eqn:E3; [done|].
  destruct (loadReferenceTable data "supplemental-table-4-exchange-with-risk")
    as [|t4] eqn:E4; [done|].
  intros [= <-]; simpl.
  apply loadReferenceTable_inr in E1, E2, E3, E4.
  change (Some (phototherapyNoRiskData data) = Some t1) in E1.
  change (Some (phototherapyWithRiskData data) = Some t2) in E2.
  change (Some (exchangeNoRiskData data) = Some t3) in E3.
  change (Some (exchangeWithRiskData data) = Some t4) in E4.
  by simplify_eq.
Qed.

Lemma loadAllReferenceTables_inl data e :
  loadAllReferenceTables data = inl e → data_integrity_error e.
Proof.
  assert (Hone : ∀ name e', loadReferenceTable data name = inl e' →
                            data_integrity_error e').
  { intros name e'. unfold loadReferenceTable.
    destruct (REFERENCE_TABLES data !! name) as [t|]; [|intros [= <-]; constructor].
    destruct (validateTableStructure t name); [|done]. intros [= <-]; constructor. }
  unfold loadAllReferenceTables, bind, ret.
  repeat match goal with
         | |- context [loadReferenceTable data ?name] =>
             let E := fresh "E" in
             destruct (loadReferenceTable data name) eqn:E;
             [intros [= <-]; by eapply Hone|]
         end.
  done.
Qed.

Lemma getThresholdValue_inl table gestationalAge ageHours e :
  getThresholdValue table gestationalAge ageHours = inl e → data_integrity_error e.
Proof.
  unfold getThresholdValue, bind.
  destruct (determineGestationalAgeKey table gestationalAge) as [e'|gaKey] eqn:Ekey.
  - intros [= <-]. revert Ekey. unfold determineGestationalAgeKey, ret, throw.
    repeat case_match; try done. intros [= <-]. constructor.
  - destruct (get_by_String (thresholds table) gaKey) as [threshold|];
      [|intros [= <-]; constructor].
    destruct (clampHours ageHours >=? plateauHour threshold)%js; [done|].
    destruct (get_by_String (values threshold) (clampHours ageHours));
      [done|intros [= <-]; constructor].
Qed.

(** A successful lookup in a JSON table yields a number. *)
Lemma getThresholdValue_json table gestationalAge ageHours value :
  json_table table →
  getThresholdValue table gestationalAge ageHours = inr value →
  isNaN value = false.
Proof.
  intros Hjson. unfold getThresholdValue, bind.
  destruct (determineGestationalAgeKey table gestationalAge) as [|gaKey]; [done|].
  destruct (get_by_String (thresholds table) gaKey) as [threshold|] eqn:Eb; [|done].
  apply get_by_String_Some in Eb as [k Hk].
  destruct (Hjson k threshold Hk) as [Hplateau Hvalues].
  destruct (clampHours ageHours >=? plateauHour threshold)%js.
  - by intros [= <-].
  - destruct (get_by_String (values threshold) (clampHours ageHours))
      as [v|] eqn:Ev; [|done].
    intros [= <-]. apply get_by_String_Some in Ev as [h Hh]. by eapply Hvalues.
Qed.

(** C1. Whenever the derivation of the thresholds succeeds on reference data
    read from JSON, the exchange threshold is at least the escalation
    threshold and the phototherapy threshold at least the transcutaneous
    confirmation threshold: the two derived thresholds are the raw ones minus
    the fixed offsets [ESCALATION_OFFSET_MG_DL] and
    [TCB_CONFIRMATION_OFFSET_MG_DL], both equal to 2 and hence
    non-negative. *)
Theorem C1_derived_thresholds_ordered
    (data : ReferenceData) (gestationalAgeWeeks ageHours : number)
    (hasNeurotoxicityRiskFactors : bool) (thresholds : AapBilirubinThresholds) :
  json_data data →
  calculateBilirubinThresholds data gestationalAgeWeeks ageHours
    hasNeurotoxicityRiskFactors = inr thresholds →
  ((exchangeTransfusion thresholds >=? escalationOfCare thresholds)%js = true ∧
   (phototherapy thresholds >=? transcutaneousBilirubinConfirmation thresholds)%js
     = true) ∧
  (escalationOfCare thresholds =
     (exchangeTransfusion thresholds - HYPERBILI_THRESHOLDS.ESCALATION_OFFSET_MG_DL)%js ∧
   transcutaneousBilirubinConfirmation thresholds =
     (phototherapy thresholds - HYPERBILI_THRESHOLDS.TCB_CONFIRMATION_OFFSET_MG_DL)%js) ∧
  (HYPERBILI_THRESHOLDS.ESCALATION_OFFSET_MG_DL = Num 2 ∧
   HYPERBILI_THRESHOLDS.TCB_CONFIRMATION_OFFSET_MG_DL = Num 2 ∧
   Le (Num 0) HYPERBILI_THRESHOLDS.ESCALATION_OFFSET_MG_DL ∧
   Le (Num 0) HYPERBILI_THRESHOLDS.TCB_CONFIRMATION_OFFSET_MG_DL).
Proof.
  intros (Hj1 & Hj2 & Hj3 & Hj4).
  unfold calculateBilirubinThresholds, bind, ret, throw.
  destruct (loadAllReferenceTables data) as [|tables] eqn:Eload; [done|].
  apply loadAllReferenceTables_inr in Eload as (E1 & E2 & E3 & E4).
  destruct (ageHours >? HYPERBILI_THRESHOLDS.MAX_AGE_HOURS)%js; [done|].
  destruct (getThresholdValue
              (if hasNeurotoxicityRiskFactors then phototherapyWithRisk tables
               else phototherapyNoRisk tables) gestationalAgeWeeks ageHours)
    as [|P] eqn:EP; [done|].
  destruct (getThresholdValue
              (if hasNeurotoxicityRiskFactors then exchangeWithRisk tables
               else exchangeNoRisk tables) gestationalAgeWeeks ageHours)
    as [|E] eqn:EE; [done|].
  assert (HP : isNaN P = false).
  { eapply getThresholdValue_json; [|exact EP].
    destruct hasNeurotoxicityRiskFactors; [by rewrite E2|by rewrite E1]. }
  assert (HE : isNaN E = false).
  { eapply getThresholdValue_json; [|exact EE].
    destruct hasNeurotoxicityRiskFactors; [by rewrite E4|by rewrite E3]. }
  intros [= <-]; simpl. split_and!; try reflexivity; try (by vm_compute).
  - apply num_ge_Le. by apply Le_sub_offset.
  - apply num_ge_Le. by apply Le_sub_offset.
Qed.

Lemma Sample_data_json : json_data Sample.data.
Proof.
  assert (Hhourly : ∀ base lastHour,
            map_Forall (λ _ value, isNaN value = false) (Sample.hourly base lastHour)).
  { intros base lastHour h v Hv. unfold Sample.hourly in Hv.
    apply elem_of_list_to_map_2, list_elem_of_fmap in Hv as (h' & [= _ ->] & _).
    done. }
  assert (Hentry : ∀ descr base plateau, json_entry (Sample.entry descr base plateau)).
  { intros descr base plateau. split; [done|apply Hhourly]. }
  unfold json_data, json_table, Sample.data; simpl.
  split_and!; intros k b Hin; cbn [thresholds list_to_map foldr uncurry] in Hin.
  all: repeat (apply lookup_insert_Some in Hin as [[_ <-]|[_ Hin]];
               [apply Hentry|]).
  all: by rewrite lookup_empty in Hin.
Qed.

Lemma C1_witness :
  json_data Sample.data ∧
  calculateBilirubinThresholds Sample.data (Num 39) (Num 48) false =
    inr {| phototherapy := Num 12.30; escalationOfCare := Num 19.8;
           exchangeTransfusion := Num 21.8;
           transcutaneousBilirubinConfirmation := Num 10.30 |} ∧
  (Num 21.8 >=? Num 19.8)%js = true ∧
  (Num 12.30 >=? Num 10.30)%js = true.
Proof.
  split; [exact Sample_data_json|]. split; [reflexivity|].
  apply (C1_derived_thresholds_ordered Sample.data (Num 39) (Num 48) false
           {| phototherapy := Num 12.30; escalationOfCare := Num 19.8;
              exchangeTransfusion := Num 21.8;
              transcutaneousBilirubinConfirmation := Num 10.30 |}
           Sample_data_json eq_refl).
Defined.

(* ================================================================== *)
(** ** The complete assessment *)
(* ================================================================== *)

Lemma calculateBilirubinThresholds_inl data gestationalAgeWeeks ageHours risk e :
  (ageHours >? Num 336)%js = false →
  calculateBilirubinThresholds data gestationalAgeWeeks ageHours risk = inl e →
  data_integrity_error e.
Proof.
  intros Hage. unfold calculateBilirubinThresholds, bind, ret, throw.
  destruct (loadAllReferenceTables data) as [e'|tables] eqn:Eload.
  { intros [= <-]. by eapply loadAllReferenceTables_inl. }
  change HYPERBILI_THRESHOLDS.MAX_AGE_HOURS with (Num 336). rewrite Hage.
  destruct (getThresholdValue
              (if risk then phototherapyWithRisk tables else phototherapyNoRisk tables)
              gestationalAgeWeeks ageHours) as [e'|P] eqn:EP.
  { intros [= <-]. by eapply getThresholdValue_inl. }
  destruct (getThresholdValue
              (if risk then exchangeWithRisk tables else exchangeNoRisk tables)
              gestationalAgeWeeks ageHours) as [e'|E] eqn:EE; [|done].
  intros [= <-]. by eapply getThresholdValue_inl.
Qed.

(** The validation rejects exactly the inputs that are out of range. *)
Lemma validateHyperbiliRiskInput_out_of_range input :
  if out_of_range input
  then ∃ e, validateHyperbiliRiskInput input = inl e ∧ input_range_error e
  else validateHyperbiliRiskInput input = inr ().
Proof.
  unfold out_of_range, validateHyperbiliRiskInput, throw, ret.
  change HYPERBILI_THRESHOLDS.MIN_GESTATIONAL_AGE_WEEKS with (Num 35).
  change HYPERBILI_THRESHOLDS.MAX_GESTATIONAL_AGE_WEEKS with (Num 42).
  change HYPERBILI_THRESHOLDS.MIN_AGE_HOURS with (Num 1).
  change HYPERBILI_THRESHOLDS.MAX_AGE_HOURS with (Num 336).
  change HYPERBILI_THRESHOLDS.MIN_TSB_MG_DL with (Num 0).
  change HYPERBILI_THRESHOLDS.MAX_TSB_MG_DL with (Num 30).
  destruct (gestationalAge input <? Num 35)%js; [eexists; split; [done|constructor]|].
  destruct (gestationalAge input >? Num 42)%js; [eexists; split; [done|constructor]|].
  destruct (currentAgeHours input <? Num 1)%js; [eexists; split; [done|constructor]|].
  destruct (currentAgeHours input >? Num 336)%js; [eexists; split; [done|constructor]|].
  destruct (currentTSB input <? Num 0)%js; [eexists; split; [done|constructor]|].
  destruct (currentTSB input >? Num 30)%js; [eexists; split; [done|constructor]|].
  done.
Qed.

(** C4, as the code has it. [assessHyperbiliRisk] polices the clinical input
    range itself: an input whose gestational age is below 35 or above 42
    weeks, whose age is below 1 or above 336 hours, or whose bilirubin is
    below 0 or above 30 mg/dL is rejected with an input-range
    [InvalidInputError]. Every other input goes on to the table-driven
    computation, and there only the data-integrity checks of the table
    loader, the key resolver and the lookup can fail. *)
Theorem C4_range_validation_before_table_lookup
    (data : ReferenceData) (input : HyperbiliRiskInput) :
  (out_of_range input = true →
     ∃ e, assessHyperbiliRisk data input = inl e ∧ input_range_error e) ∧
  (out_of_range input = false →
     assessHyperbiliRisk data input = tableDrivenAssessment data input ∧
     ∀ e, assessHyperbiliRisk data input = inl e → data_integrity_error e).
Proof.
  pose proof (validateHyperbiliRiskInput_out_of_range input) as Hvalid.
  split; intros Hrange; rewrite Hrange in Hvalid.
  - destruct Hvalid as (e & Hvalid & He). exists e. split; [|done].
    unfold assessHyperbiliRisk. by rewrite Hvalid.
  - assert (assessHyperbiliRisk data input = tableDrivenAssessment data input) as ->.
    { unfold assessHyperbiliRisk. by rewrite Hvalid. }
    split; [done|]. intros e.
    unfold tableDrivenAssessment, HyperbiliRiskUnvalidated.assessHyperbiliRisk, bind.
    destruct (calculateBilirubinThresholds _ _ _ _) as [e'|th] eqn:Ecalc; [|done].
    intros [= <-]. eapply calculateBilirubinThresholds_inl; [|exact Ecalc].
    unfold out_of_range in Hrange. rewrite !orb_false_iff in Hrange. tauto.
Qed.

Lemma C4_witness :
  let input := {| gestationalAge := Num 39; currentAgeHours := Num 48;
                  currentTSB := Num 10; riskFactors := Some [] |} in
  out_of_range input = false ∧
  assessHyperbiliRisk Sample.data input = tableDrivenAssessment Sample.data input ∧
  is_Some (sum_rect (λ _, option HyperbiliRiskResult) (λ _, None) Some
             (assessHyperbiliRisk Sample.data input)).
Proof.
  intros input.
  assert (Hrange : out_of_range input = false) by reflexivity.
  split; [exact Hrange|]. split; [|vm_compute; by eexists].
  exact (proj1 (proj2 (C4_range_validation_before_table_lookup Sample.data input)
                  Hrange)).
Defined.

(** C4, as stated, fails: a gestational age of 32 weeks and a bilirubin of 35
    mg/dL are each rejected with an input-range error, although the
    table-driven computation on the same inputs succeeds. *)
Lemma C4_counterexample :
  let input32 := {| gestationalAge := Num 32; currentAgeHours := Num 48;
                    currentTSB := Num 10; riskFactors := Some [] |} in
  let input35 := {| gestationalAge := Num 38; currentAgeHours := Num 48;
                    currentTSB := Num 35; riskFactors := Some [] |} in
  assessHyperbiliRisk Sample.data input32 =
    inl (InvalidInputError (GestationalAgeBelowMinimum (Num 32))) ∧
  assessHyperbiliRisk Sample.data input35 =
    inl (InvalidInputError (TSBExceedsMaximum (Num 35))) ∧
  (∃ r, tableDrivenAssessment Sample.data input32 = inr r) ∧
  (∃ r, tableDrivenAssessment Sample.data input35 = inr r).
Proof.
  intros input32 input35.
  split_and!; [vm_compute; reflexivity..|vm_compute; by eexists|vm_compute; by eexists].
Qed.

(** The copy of the module without the validation call still rejects an age
    above 336 hours, in [calculateBilirubinThresholds]. *)
Lemma unvalidated_rejects_age_400 :
  HyperbiliRiskUnvalidated.assessHyperbiliRisk Sample.data
    {| gestationalAge := Num 39; currentAgeHours := Num 400;
       currentTSB := Num 10; riskFactors := Some [] |} =
  inl (InvalidInputError (AgeExceedsMaximum (Num 400))).
Proof. vm_compute. reflexivity. Qed.

(** C10. Omitting [riskFactors] gives the same result as passing the empty
    list; when the assessment succeeds, its thresholds are those derived from
    the tables without risk factors, [hasNeurotoxicityRiskFactors] is false,
    [aapFigureUsed] is 2 and [presentRiskFactors] is empty. *)
Theorem C10_omitted_risk_factors_as_empty_list
    (data : ReferenceData) (input : HyperbiliRiskInput) :
  riskFactors input = None →
  assessHyperbiliRisk data input =
    assessHyperbiliRisk data (with_riskFactors input (Some [])) ∧
  (∀ r, assessHyperbiliRisk data input = inr r →
     calculateBilirubinThresholds data (gestationalAge input)
       (currentAgeHours input) false = inr (res_thresholds r) ∧
     hasNeurotoxicityRiskFactors (assessmentContext r) = false ∧
     aapFigureUsed (assessmentContext r) = 2%Z ∧
     presentRiskFactors (assessmentContext r) = []).
Proof.
  intros Hnone. split.
  - unfold assessHyperbiliRisk, validateHyperbiliRiskInput. simpl. by rewrite Hnone.
  - intros r. unfold assessHyperbiliRisk, bind. rewrite Hnone. simpl.
    destruct (validateHyperbiliRiskInput input); [done|].
    destruct (calculateBilirubinThresholds _ _ _ _) as [|th]; [done|].
    by intros [= <-].
Qed.

Lemma C10_witness :
  let input := {| gestationalAge := Num 39; currentAgeHours := Num 48;
                  currentTSB := Num 10; riskFactors := None |} in
  riskFactors input = None ∧
  assessHyperbiliRisk Sample.data input =
    assessHyperbiliRisk Sample.data (with_riskFactors input (Some [])) ∧
  is_Some (sum_rect (λ _, option HyperbiliRiskResult) (λ _, None) Some
             (assessHyperbiliRisk Sample.data input)).
Proof.
  intros input.
  split; [reflexivity|]. split; [|vm_compute; by eexists].
  exact (proj1 (C10_omitted_risk_factors_as_empty_list Sample.data input eq_refl)).
Defined.

(* ================================================================== *)
(** ** Keys of a reference table *)
(* ================================================================== *)

Lemma elem_of_Object_keys {A} (o : gmap Z A) (k : Z) :
  k ∈ Object_keys o ↔ is_Some (o !! k).
Proof.
  unfold Object_keys. rewrite merge_sort_Permutation, list_elem_of_fmap. split.
  - intros ([k' v] & -> & Hin). apply elem_of_map_to_list in Hin. by exists v.
  - intros [v Hv]. exists (k, v). split; [done|]. by apply elem_of_map_to_list.
Qed.

Lemma Object_keys_nil {A} (o : gmap Z A) : Object_keys o = [] ↔ o = ∅.
Proof.
  split.
  - intros Hnil. apply map_empty. intros k. apply eq_None_not_Some.
    rewrite <- elem_of_Object_keys, Hnil. apply not_elem_of_nil.
  - intros ->. unfold Object_keys. by rewrite map_to_list_empty.
Qed.

(** [includes] on the numeric keys finds exactly the integers among them. *)
Lemma Array_includes_keys (l : list Z) (n : number) :
  Array_includes (Number_of_key <$> l) n = true ↔
  ∃ k q, n = Num q ∧ (q == inject_Z k)%Q ∧ k ∈ l.
Proof.
  unfold Array_includes. rewrite existsb_exists. split.
  - intros (x & Hx & Hsame). apply list_elem_of_In, list_elem_of_fmap in Hx as (k & -> & Hk).
    destruct n as [| |q|]; try done. exists k, q. split_and!; [done| |done].
    by apply Qeq_bool_eq.
  - intros (k & q & -> & Hq & Hk). exists (Number_of_key k). split.
    + apply list_elem_of_In, list_elem_of_fmap. eauto.
    + simpl. by apply Qeq_bool_iff.
Qed.

(** [Math.max] over the keys of a non-empty record is its largest key, and
    [Math.min] its smallest. *)
Lemma Math_max_keys (l : list Z) :
  l ≠ [] →
  ∃ m, m ∈ l ∧ (∀ k, k ∈ l → (k ≤ m)%Z) ∧
       Math_max (Number_of_key <$> l) = Number_of_key m.
Proof.
  induction l as [|a l IH]; [done|]. intros _.
  destruct l as [|b l].
  { exists a. split_and!; [by left| |done]. by intros k ->%list_elem_of_singleton. }
  destruct IH as (m & Hm & Hmax & Heq); [done|].
  change (Math_max (Number_of_key <$> a :: b :: l))
    with (Math_max2 (Number_of_key a) (Math_max (Number_of_key <$> b :: l))).
  rewrite Heq. unfold Math_max2, Number_of_key, num_ge, num_le.
  destruct (Qle_bool (inject_Z m) (inject_Z a)) eqn:E.
  - apply Qle_bool_iff in E. rewrite <- Zle_Qle in E.
    exists a. split_and!; [by left| |done].
    intros k [->|Hk]%elem_of_cons; [done|]. specialize (Hmax k Hk). lia.
  - apply not_true_iff_false in E. rewrite Qle_bool_iff, <- Zle_Qle in E.
    exists m. split_and!; [by right| |done].
    intros k [->|Hk]%elem_of_cons; [lia|by apply Hmax].
Qed.

Lemma Math_min_keys (l : list Z) :
  l ≠ [] →
  ∃ m, m ∈ l ∧ (∀ k, k ∈ l → (m ≤ k)%Z) ∧
       Math_min (Number_of_key <$> l) = Number_of_key m.
Proof.
  induction l as [|a l IH]; [done|]. intros _.
  destruct l as [|b l].
  { exists a. split_and!; [by left| |done]. by intros k ->%list_elem_of_singleton. }
  destruct IH as (m & Hm & Hmin & Heq); [done|].
  change (Math_min (Number_of_key <$> a :: b :: l))
    with (Math_min2 (Number_of_key a) (Math_min (Number_of_key <$> b :: l))).
  rewrite Heq. unfold Math_min2, Number_of_key, num_le.
  destruct (Qle_bool (inject_Z a) (inject_Z m)) eqn:E.
  - apply Qle_bool_iff in E. rewrite <- Zle_Qle in E.
    exists a. split_and!; [by left| |done].
    intros k [->|Hk]%elem_of_cons; [done|]. specialize (Hmin k Hk). lia.
  - apply not_true_iff_false in E. rewrite Qle_bool_iff, <- Zle_Qle in E.
    exists m. split_and!; [by right| |done].
    intros k [->|Hk]%elem_of_cons; [lia|by apply Hmin].
Qed.

(** Comparing with an integer commutes with [Math.floor]. *)
Lemma num_ge_floor (g : number) (z : Z) :
  (Math_floor g >=? Num (inject_Z z))%js = (g >=? Num (inject_Z z))%js.
Proof.
  destruct g as [| |q|]; try done. unfold Math_floor, num_ge, num_le.
  apply eq_true_iff_eq. rewrite !Qle_bool_iff, <- Zle_Qle. split.
  - intros H. rewrite Zle_Qle in H. pose proof (Qfloor_le q). lra.
  - intros H. apply Qfloor_resp_le in H. by rewrite Qfloor_Z in H.
Qed.

Lemma Math_floor_idemp (g : number) : Math_floor (Math_floor g) = Math_floor g.
Proof. destruct g as [| |q|]; try done. unfold Math_floor. by rewrite Qfloor_Z. Qed.

Lemma get_by_String_Qeq {A} (o : gmap Z A) (q : Q) (k : Z) :
  (q == inject_Z k)%Q → get_by_String o (Num q) = o !! k.
Proof.
  intros Hq. unfold get_by_String.
  assert (Qfloor q = k) as -> by (by rewrite Hq, Qfloor_Z).
  by rewrite (proj2 (Qeq_bool_iff _ _) Hq).
Qed.

Lemma Array_includes_keys_NaN (l : list Z) :
  Array_includes (Number_of_key <$> l) NaN = false.
Proof.
  apply not_true_iff_false. rewrite Array_includes_keys. by intros (? & ? & ? & _).
Qed.

(* ================================================================== *)
(** ** Gestational-age key resolution, beyond the grouping rules *)
(* ================================================================== *)

(** X1. The resolver sees a gestational age only through its floor: fractional
    weeks never change the resolved key, on any table. *)
Theorem X1_determineGestationalAgeKey_ignores_fraction
    (table : AapReferenceTable) (gestationalAge gaKey : number) :
  determineGestationalAgeKey table gestationalAge = inr gaKey ↔
  determineGestationalAgeKey table (Math_floor gestationalAge) = inr gaKey.
Proof.
  unfold determineGestationalAgeKey.
  change (Num 40) with (Num (inject_Z 40)). change (Num 38) with (Num (inject_Z 38)).
  rewrite !num_ge_floor, Math_floor_idemp.
  repeat case_match; try done.
Qed.

Lemma resolver_rejects_NaN (table : AapReferenceTable) :
  determineGestationalAgeKey table NaN =
    inl (InvalidInputError
           (UnableToDetermineKey NaN
              (Number_of_key <$> Object_keys (thresholds table)))).
Proof.
  unfold determineGestationalAgeKey. cbn [Math_floor num_ge num_le].
  rewrite !andb_false_r. cbn [andb]. rewrite Array_includes_keys_NaN.
  by destruct (Math_max (Number_of_key <$> Object_keys (thresholds table))),
             (Math_min (Number_of_key <$> Object_keys (thresholds table))).
Qed.

(** X2. A [NaN] gestational age resolves on no table: every comparison fails and
    the resolver throws its own [InvalidInputError]. *)
Theorem X2_determineGestationalAgeKey_NaN (table : AapReferenceTable) :
  determineGestationalAgeKey table NaN =
    inl (InvalidInputError
           (UnableToDetermineKey NaN
              (Number_of_key <$> Object_keys (thresholds table)))).
Proof. exact (resolver_rejects_NaN table). Qed.

Lemma resolved_key_names_a_bucket
    (table : AapReferenceTable) (gestationalAge gaKey : number) :
  is_Some (thresholds table !! 38%Z) →
  determineGestationalAgeKey table gestationalAge = inr gaKey →
  is_Some (get_by_String (thresholds table) gaKey).
Proof.
  intros H38.
  assert (Hne : Object_keys (thresholds table) ≠ []).
  { intros Hnil%Object_keys_nil. rewrite Hnil, lookup_empty in H38.
    by destruct H38. }
  destruct (Math_max_keys _ Hne) as (mx & Hmx & _ & Emax).
  destruct (Math_min_keys _ Hne) as (mn & Hmn & _ & Emin).
  unfold determineGestationalAgeKey, ret, throw. rewrite Emax, Emin.
  repeat case_match; try done; intros [= <-].
  - match goal with H : _ && _ && _ = true |- _ =>
      apply andb_true_iff in H as [[_ Hin]%andb_true_iff _] end.
    apply Array_includes_keys in Hin as (k & q & [= <-] & Hq & Hk).
    rewrite (get_by_String_Qeq _ _ k Hq). by apply elem_of_Object_keys.
  - by rewrite (get_by_String_integer _ 38).
  - by rewrite (get_by_String_integer _ 38).
  - match goal with H : Array_includes _ _ = true |- _ =>
      apply Array_includes_keys in H as (k & q & -> & Hq & Hk) end.
    rewrite (get_by_String_Qeq _ _ k Hq). by apply elem_of_Object_keys.
  - unfold Number_of_key. rewrite get_by_String_integer.
    by apply elem_of_Object_keys.
  - unfold Number_of_key. rewrite get_by_String_integer.
    by apply elem_of_Object_keys.
Qed.

(** X3. On a table that has a 38-week bucket, whatever key the resolver returns
    names an existing bucket: the "no threshold data" failure of the lookup
    cannot occur. *)
Theorem X3_determineGestationalAgeKey_names_a_bucket
    (table : AapReferenceTable) (gestationalAge gaKey : number) :
  is_Some (thresholds table !! 38%Z) →
  determineGestationalAgeKey table gestationalAge = inr gaKey →
  is_Some (get_by_String (thresholds table) gaKey).
Proof. exact (resolved_key_names_a_bucket table gestationalAge gaKey). Qed.

Lemma X3_determineGestationalAgeKey_names_a_bucket_witness :
  is_Some (thresholds Sample.exchangeNoRiskTable !! 38%Z) ∧
  determineGestationalAgeKey Sample.exchangeNoRiskTable (Num 33.5) = inr (Num 35) ∧
  is_Some (get_by_String (thresholds Sample.exchangeNoRiskTable) (Num 35)).
Proof.
  assert (H38 : is_Some (thresholds Sample.exchangeNoRiskTable !! 38%Z))
    by (by eexists).
  split; [exact H38|]. split; [reflexivity|].
  exact (X3_determineGestationalAgeKey_names_a_bucket
           Sample.exchangeNoRiskTable (Num 33.5) (Num 35) H38 eq_refl).
Defined.

Lemma resolver_total_on_contiguous_keys
    (table : AapReferenceTable) (gestationalAge : number) :
  thresholds table ≠ ∅ →
  contiguous_keys table →
  isNaN gestationalAge = false →
  ∃ gaKey, determineGestationalAgeKey table gestationalAge = inr gaKey.
Proof.
  intros Hne Hcontig Hnum.
  assert (Hne' : Object_keys (thresholds table) ≠ []).
  { intros Hnil%Object_keys_nil. done. }
  destruct (Math_max_keys _ Hne') as (mx & Hmx & _ & Emax).
  destruct (Math_min_keys _ Hne') as (mn & Hmn & _ & Emin).
  unfold determineGestationalAgeKey, ret, throw. rewrite Emax, Emin.
  repeat case_match; eauto. exfalso.
  destruct gestationalAge as [| |q|]; try done.
  unfold Math_floor, Number_of_key, num_ge, num_le in *.
  repeat match goal with
         | H : Qle_bool _ _ = false |- _ =>
             apply not_true_iff_false in H; rewrite Qle_bool_iff, <- Zle_Qle in H
         end.
  match goal with H : Array_includes _ _ = false |- _ =>
    apply not_true_iff_false in H; apply H end.
  apply Array_includes_keys. exists (Qfloor q), (inject_Z (Qfloor q)).
  split_and!; [done..|]. apply elem_of_Object_keys.
  apply (Hcontig mn mx); [by apply elem_of_Object_keys..|lia].
Qed.


Lemma Sample_keys_35_40 (k : Z) :
  is_Some (thresholds Sample.phototherapyNoRiskTable !! k) → (35 ≤ k ≤ 40)%Z.
Proof.
  intros [? Hk].
  cbn [thresholds Sample.phototherapyNoRiskTable list_to_map foldr uncurry fst snd]
    in Hk.
  repeat (apply lookup_insert_Some in Hk as [[<- _]|[_ Hk]]; [lia|]).
  by rewrite lookup_empty in Hk.
Qed.

Lemma Sample_contiguous_35_40 : contiguous_keys Sample.phototherapyNoRiskTable.
Proof.
  intros lo hi z Hlo%Sample_keys_35_40 Hhi%Sample_keys_35_40 Hz.
  assert (z = 35 ∨ z = 36 ∨ z = 37 ∨ z = 38 ∨ z = 39 ∨ z = 40)%Z
    as [->|[->|[->|[->|[->| ->]]]]] by lia; by eexists.
Qed.


(** X5. Below 38 weeks no grouping applies: the floored age is the key when a
    bucket exists there, an age below the smallest key resolves to the
    smallest key, and an age above the largest key to the largest. *)
Theorem X5_determineGestationalAgeKey_floor_and_clamp
    (table : AapReferenceTable) (q : Q) (mn mx : Z) :
  Lt (Num q) (Num 38) →
  is_Some (thresholds table !! mn) →
  is_Some (thresholds table !! mx) →
  (∀ k, is_Some (thresholds table !! k) → (mn ≤ k ≤ mx)%Z) →
  (is_Some (thresholds table !! Qfloor q) →
     determineGestationalAgeKey table (Num q) = inr (Num (inject_Z (Qfloor q)))) ∧
  ((Qfloor q ≤ mn)%Z →
     determineGestationalAgeKey table (Num q) = inr (Num (inject_Z mn))) ∧
  ((mx ≤ Qfloor q)%Z →
     determineGestationalAgeKey table (Num q) = inr (Num (inject_Z mx))).
Proof.
  intros H38 Hmn Hmx Hbounds.
  assert (Hne : Object_keys (thresholds table) ≠ []).
  { intros Hnil. apply elem_of_Object_keys in Hmn. rewrite Hnil in Hmn.
    by apply not_elem_of_nil in Hmn. }
  destruct (Math_max_keys _ Hne) as (mx' & Hmx' & Hub & Emax).
  destruct (Math_min_keys _ Hne) as (mn' & Hmn' & Hlb & Emin).
  assert (mx' = mx) as ->.
  { apply elem_of_Object_keys in Hmx, Hmx'. specialize (Hub mx Hmx).
    specialize (Hbounds mx' Hmx'). lia. }
  assert (mn' = mn) as ->.
  { apply elem_of_Object_keys in Hmn, Hmn'. specialize (Hlb mn Hmn).
    specialize (Hbounds mn' Hmn'). lia. }
  assert (H38' : (Num q >=? Num 38)%js = false).
  { apply num_lt_not_ge. by apply num_lt_Lt. }
  assert (H40 : (Num q >=? Num 40)%js = false).
  { apply num_lt_not_ge, num_lt_Lt. simpl in *. lra. }
  assert (Hincl : is_Some (thresholds table !! Qfloor q) →
            determineGestationalAgeKey table (Num q) =
              inr (Num (inject_Z (Qfloor q)))).
  { intros Hin. unfold determineGestationalAgeKey. rewrite H38', H40, !andb_false_r.
    cbn [Math_floor].
    assert (Array_includes (Number_of_key <$> Object_keys (thresholds table))
              (Num (inject_Z (Qfloor q))) = true) as ->; [|done].
    apply Array_includes_keys. exists (Qfloor q), (inject_Z (Qfloor q)).
    split_and!; [done..|]. by apply elem_of_Object_keys. }
  split_and!; [exact Hincl|..].
  - intros Hle. destruct (decide (Qfloor q = mn)) as [Heq|Hne'].
    { rewrite <- Heq. apply Hincl. by rewrite Heq. }
    unfold determineGestationalAgeKey. rewrite H38', H40, !andb_false_r, Emax, Emin.
    cbn [Math_floor].
    assert (Array_includes (Number_of_key <$> Object_keys (thresholds table))
              (Num (inject_Z (Qfloor q))) = false) as ->.
    { apply not_true_iff_false. rewrite Array_includes_keys.
      intros (k & q' & [= <-] & Hq & Hk%elem_of_Object_keys).
      apply (proj1 (inject_Z_injective _ _)) in Hq. subst k.
      specialize (Hbounds _ Hk). lia. }
    assert (mn ≤ mx)%Z by (specialize (Hbounds _ Hmn); lia).
    unfold Number_of_key, num_ge, num_le.
    assert (Qle_bool (inject_Z mx) (inject_Z (Qfloor q)) = false) as ->.
    { apply not_true_iff_false. rewrite Qle_bool_iff, <- Zle_Qle. lia. }
    assert (Qle_bool (inject_Z (Qfloor q)) (inject_Z mn) = true) as ->; [|done].
    rewrite Qle_bool_iff, <- Zle_Qle. lia.
  - intros Hle. destruct (decide (Qfloor q = mx)) as [Heq|Hne'].
    { rewrite <- Heq. apply Hincl. by rewrite Heq. }
    unfold determineGestationalAgeKey. rewrite H38', H40, !andb_false_r, Emax.
    cbn [Math_floor].
    assert (Array_includes (Number_of_key <$> Object_keys (thresholds table))
              (Num (inject_Z (Qfloor q))) = false) as ->.
    { apply not_true_iff_false. rewrite Array_includes_keys.
      intros (k & q' & [= <-] & Hq & Hk%elem_of_Object_keys).
      apply (proj1 (inject_Z_injective _ _)) in Hq. subst k.
      specialize (Hbounds _ Hk). lia. }
    unfold Number_of_key, num_ge, num_le.
    assert (Qle_bool (inject_Z mx) (inject_Z (Qfloor q)) = true) as ->; [|done].
    rewrite Qle_bool_iff, <- Zle_Qle. lia.
Qed.

Lemma X5_determineGestationalAgeKey_floor_and_clamp_witness :
  Lt (Num 33.5) (Num 38) ∧
  is_Some (thresholds Sample.phototherapyNoRiskTable !! 35%Z) ∧
  is_Some (thresholds Sample.phototherapyNoRiskTable !! 40%Z) ∧
  (Qfloor 33.5 ≤ 35)%Z ∧
  determineGestationalAgeKey Sample.phototherapyNoRiskTable (Num 33.5) =
    inr (Num (inject_Z 35)).
Proof.
  assert (H38 : Lt (Num 33.5) (Num 38)) by (by vm_compute).
  assert (H35 : is_Some (thresholds Sample.phototherapyNoRiskTable !! 35%Z))
    by (by eexists).
  assert (H40 : is_Some (thresholds Sample.phototherapyNoRiskTable !! 40%Z))
    by (by eexists).
  assert (Hle : (Qfloor 33.5 ≤ 35)%Z) by (by vm_compute).
  split_and!; [done..|].
  exact (proj1 (proj2 (X5_determineGestationalAgeKey_floor_and_clamp
                         Sample.phototherapyNoRiskTable 33.5 35 40 H38 H35 H40
                         Sample_keys_35_40)) Hle).
Defined.

(* ================================================================== *)
(** ** The clamped hour and the lookup *)
(* ================================================================== *)

Lemma num_ge_false_Lt (a b : number) :
  isNaN a = false → isNaN b = false → (a >=? b)%js = false → Lt a b.
Proof.
  destruct a as [| |x|], b as [| |y|]; simpl; try done.
  intros _ _ E. apply not_true_iff_false in E. rewrite Qle_bool_iff in E. lra.
Qed.

Lemma clampHours_range_lemma (ageHours : number) :
  isNaN ageHours = false →
  ∃ h : Z, clampHours ageHours = Num (inject_Z h) ∧ (1 ≤ h ≤ 336)%Z ∧
           (∀ q, ageHours = Num q → h = Z.max 1 (Z.min 336 (Qfloor q))) ∧
           (ageHours = Infinity → h = 336%Z) ∧
           (ageHours = NegInfinity → h = 1%Z).
Proof.
  intros Hnum. destruct ageHours as [| |q|]; [done|..].
  - exists 1%Z. split; [done|split; [lia|by split_and!]].
  - exists (Z.max 1 (Z.min 336 (Qfloor q))).
    split; [|split; [lia|split_and!; [by intros ? [= <-]|done..]]].
    unfold clampHours, Math_floor, Math_min2, Math_max2, num_ge, num_le.
    destruct (Qle_bool 336 (inject_Z (Qfloor q))) eqn:E1.
    + apply Qle_bool_iff in E1. change 336%Q with (inject_Z 336) in E1.
      rewrite <- Zle_Qle in E1.
      replace (Z.max 1 (Z.min 336 (Qfloor q))) with 336%Z by lia. done.
    + apply not_true_iff_false in E1. rewrite Qle_bool_iff in E1.
      change 336%Q with (inject_Z 336) in E1. rewrite <- Zle_Qle in E1.
      destruct (Qle_bool (inject_Z (Qfloor q)) 1) eqn:E2.
      * apply Qle_bool_iff in E2. change 1%Q with (inject_Z 1) in E2.
        rewrite <- Zle_Qle in E2.
        replace (Z.max 1 (Z.min 336 (Qfloor q))) with 1%Z by lia. done.
      * apply not_true_iff_false in E2. rewrite Qle_bool_iff in E2.
        change 1%Q with (inject_Z 1) in E2. rewrite <- Zle_Qle in E2.
        replace (Z.max 1 (Z.min 336 (Qfloor q))) with (Qfloor q) by lia. done.
  - exists 336%Z. split; [done|split; [lia|by split_and!]].
Qed.

(** X6. The clamped hour of any age that is a number is an integer of the lookup
    domain 1..336: the floor of a finite age cut to that range, 336 for
    [Infinity], 1 for [-Infinity]. A [NaN] age stays [NaN]. *)
Theorem X6_clampHours_range (ageHours : number) :
  clampHours NaN = NaN ∧
  (isNaN ageHours = false →
   ∃ h : Z, clampHours ageHours = Num (inject_Z h) ∧ (1 ≤ h ≤ 336)%Z ∧
            (∀ q, ageHours = Num q → h = Z.max 1 (Z.min 336 (Qfloor q))) ∧
            (ageHours = Infinity → h = 336%Z) ∧
            (ageHours = NegInfinity → h = 1%Z)).
Proof. split; [reflexivity|apply clampHours_range_lemma]. Qed.

Lemma X6_clampHours_range_witness :
  isNaN (Num 400.7) = false ∧ clampHours (Num 400.7) = Num 336 ∧
  isNaN (Num (-3)) = false ∧ clampHours (Num (-3)) = Num 1 ∧
  ∃ h : Z, clampHours (Num 47.9) = Num (inject_Z h) ∧ (1 ≤ h ≤ 336)%Z.
Proof.
  split_and!; [reflexivity..|].
  destruct (proj2 (X6_clampHours_range (Num 47.9)) eq_refl) as (h & Hh & Hrange & _).
  by exists h.
Defined.

Lemma clampHours_idemp (ageHours : number) :
  clampHours (clampHours ageHours) = clampHours ageHours.
Proof.
  destruct (isNaN ageHours) eqn:E; [by destruct ageHours|].
  destruct (clampHours_range_lemma ageHours E) as (h & -> & Hh & _).
  destruct (clampHours_range_lemma (Num (inject_Z h)) eq_refl)
    as (h' & -> & _ & Hq & _).
  rewrite (Hq _ eq_refl), Qfloor_Z. f_equal. f_equal. lia.
Qed.

(** X7. The lookup reads the age only through the clamped hour: the fraction of
    an hour is dropped, every age at or above 336 hours reads as 336 and
    every age at or below 1 hour reads as 1, results and errors alike. *)
Theorem X7_getThresholdValue_reads_clamped_hour
    (table : AapReferenceTable) (gestationalAge ageHours : number) :
  getThresholdValue table gestationalAge ageHours =
    getThresholdValue table gestationalAge (clampHours ageHours) ∧
  (Le (Num 336) ageHours →
     getThresholdValue table gestationalAge ageHours =
       getThresholdValue table gestationalAge (Num 336)) ∧
  (Le ageHours (Num 1) →
     getThresholdValue table gestationalAge ageHours =
       getThresholdValue table gestationalAge (Num 1)).
Proof.
  assert (Hsame : ∀ a a', clampHours a = clampHours a' →
            getThresholdValue table gestationalAge a =
              getThresholdValue table gestationalAge a').
  { intros a a' Heq. unfold getThresholdValue. by rewrite Heq. }
  split_and!.
  - apply Hsame. by rewrite clampHours_idemp.
  - intros Hle. apply Hsame.
    assert (isNaN ageHours = false) as Hnum by (by destruct ageHours).
    destruct (clampHours_range_lemma ageHours Hnum) as (h & -> & _ & Hq & Hinf & _).
    change (clampHours (Num 336)) with (Num (inject_Z 336)).
    destruct ageHours as [| |q|]; try done.
    + rewrite (Hq q eq_refl). simpl in Hle. change 336%Q with (inject_Z 336) in Hle.
      apply Qfloor_resp_le in Hle. rewrite Qfloor_Z in Hle. do 2 f_equal. lia.
    + by rewrite Hinf.
  - intros Hle. apply Hsame.
    assert (isNaN ageHours = false) as Hnum by (by destruct ageHours).
    destruct (clampHours_range_lemma ageHours Hnum) as (h & -> & _ & Hq & _ & Hinf).
    change (clampHours (Num 1)) with (Num (inject_Z 1)).
    destruct ageHours as [| |q|]; try done.
    + by rewrite Hinf.
    + rewrite (Hq q eq_refl). simpl in Hle. change 1%Q with (inject_Z 1) in Hle.
      apply Qfloor_resp_le in Hle. rewrite Qfloor_Z in Hle. do 2 f_equal. lia.
Qed.

Lemma X7_getThresholdValue_reads_clamped_hour_witness :
  Le (Num 336) (Num 1000) ∧
  getThresholdValue Sample.exchangeNoRiskTable (Num 36) (Num 1000) =
    getThresholdValue Sample.exchangeNoRiskTable (Num 36) (Num 336) ∧
  Le (Num 0.25) (Num 1) ∧
  getThresholdValue Sample.exchangeNoRiskTable (Num 36) (Num 0.25) =
    getThresholdValue Sample.exchangeNoRiskTable (Num 36) (Num 1).
Proof.
  assert (H1 : Le (Num 336) (Num 1000)) by (by vm_compute).
  assert (H2 : Le (Num 0.25) (Num 1)) by (by vm_compute).
  split_and!; [exact H1| |exact H2|].
  - exact (proj1 (proj2 (X7_getThresholdValue_reads_clamped_hour
                           Sample.exchangeNoRiskTable (Num 36) (Num 1000))) H1).
  - exact (proj2 (proj2 (X7_getThresholdValue_reads_clamped_hour
                           Sample.exchangeNoRiskTable (Num 36) (Num 0.25))) H2).
Defined.

(** Loading succeeds exactly when the four imported tables pass the
    validation, and then hands them out unchanged. *)
Lemma loadReferenceTable_valid data name table :
  REFERENCE_TABLES data !! name = Some table →
  validateTableStructure table name = inr () →
  loadReferenceTable data name = inr table.
Proof. intros Hlookup Hvalid. unfold loadReferenceTable. by rewrite Hlookup, Hvalid. Qed.

Lemma loadAllReferenceTables_valid data :
  validateTableStructure (phototherapyNoRiskData data)
    "supplemental-table-1-phototherapy-no-risk" = inr () →
  validateTableStructure (phototherapyWithRiskData data)
    "supplemental-table-2-phototherapy-with-risk" = inr () →
  validateTableStructure (exchangeNoRiskData data)
    "supplemental-table-3-exchange-no-risk" = inr () →
  validateTableStructure (exchangeWithRiskData data)
    "supplemental-table-4-exchange-with-risk" = inr () →
  loadAllReferenceTables data =
    inr {| phototherapyNoRisk := phototherapyNoRiskData data;
           phototherapyWithRisk := phototherapyWithRiskData data;
           exchangeNoRisk := exchangeNoRiskData data;
           exchangeWithRisk := exchangeWithRiskData data |}.
Proof.
  intros V1 V2 V3 V4. unfold loadAllReferenceTables.
  rewrite (loadReferenceTable_valid data "supplemental-table-1-phototherapy-no-risk" _ eq_refl V1).
  rewrite (loadReferenceTable_valid data "supplemental-table-2-phototherapy-with-risk" _ eq_refl V2).
  rewrite (loadReferenceTable_valid data "supplemental-table-3-exchange-no-risk" _ eq_refl V3).
  by rewrite (loadReferenceTable_valid data "supplemental-table-4-exchange-with-risk" _ eq_refl V4).
Qed.

Lemma lookup_total_on_well_formed_table
    (table : AapReferenceTable) (gestationalAge ageHours : number) :
  well_formed_table table →
  isNaN gestationalAge = false →
  isNaN ageHours = false →
  ∃ value, getThresholdValue table gestationalAge ageHours = inr value.
Proof.
  intros (H38 & Hcontig & Hbuckets) Hga Hage.
  assert (Hne : thresholds table ≠ ∅).
  { intros Hempty. rewrite Hempty, lookup_empty in H38. by destruct H38. }
  destruct (resolver_total_on_contiguous_keys
              table gestationalAge Hne Hcontig Hga) as [gaKey Hkey].
  destruct (resolved_key_names_a_bucket _ _ _ H38 Hkey)
    as [threshold Hbucket].
  destruct (get_by_String_Some _ _ _ Hbucket) as [k Hk].
  destruct (Hbuckets k threshold Hk) as [Hplateau Hcomplete].
  rewrite (getThresholdValue_resolved _ _ _ _ Hkey Hbucket).
  destruct (clampHours_range_lemma ageHours Hage) as (h & -> & Hh & _).
  destruct (Num (inject_Z h) >=? plateauHour threshold)%js eqn:E; [eauto|].
  apply num_ge_false_Lt in E; [|done..].
  destruct (Hcomplete h Hh E) as [value Hvalue].
  rewrite get_by_String_integer, Hvalue. eauto.
Qed.

(** X8. On a well-formed table the lookup succeeds for every gestational age and
    every age in hours that are numbers: neither the resolver nor either
    data-not-available check can fire. *)
Theorem X8_getThresholdValue_total_on_well_formed_table
    (table : AapReferenceTable) (gestationalAge ageHours : number) :
  well_formed_table table →
  isNaN gestationalAge = false →
  isNaN ageHours = false →
  ∃ value, getThresholdValue table gestationalAge ageHours = inr value.
Proof. exact (lookup_total_on_well_formed_table table gestationalAge ageHours). Qed.

Lemma thresholds_succeed_iff_age_in_table
    (data : ReferenceData) (gestationalAgeWeeks ageHours : number) (risk : bool) :
  well_formed_data data →
  isNaN gestationalAgeWeeks = false →
  isNaN ageHours = false →
  ((ageHours >? Num 336)%js = true →
     calculateBilirubinThresholds data gestationalAgeWeeks ageHours risk =
       inl (InvalidInputError (AgeExceedsMaximum ageHours))) ∧
  ((ageHours >? Num 336)%js = false →
     ∃ thresholds,
       calculateBilirubinThresholds data gestationalAgeWeeks ageHours risk =
         inr thresholds).
Proof.
  intros ([tables Hload] & W1 & W2 & W3 & W4) Hga Hage.
  unfold calculateBilirubinThresholds, bind, ret, throw. rewrite Hload.
  change HYPERBILI_THRESHOLDS.MAX_AGE_HOURS with (Num 336).
  apply loadAllReferenceTables_inr in Hload as (E1 & E2 & E3 & E4).
  split; intros ->; [done|].
  destruct (lookup_total_on_well_formed_table
              (if risk then phototherapyWithRisk tables else phototherapyNoRisk tables)
              gestationalAgeWeeks ageHours) as [P ->]; [|done..|].
  { destruct risk; [by rewrite E2|by rewrite E1]. }
  destruct (lookup_total_on_well_formed_table
              (if risk then exchangeWithRisk tables else exchangeNoRisk tables)
              gestationalAgeWeeks ageHours) as [E ->]; [|done..|].
  { destruct risk; [by rewrite E4|by rewrite E3]. }
  eauto.
Qed.

(** X9. On well-formed reference data the derivation of the thresholds fails for
    exactly one reason, an age above 336 hours. *)
Theorem X9_calculateBilirubinThresholds_succeeds_iff_age_in_table
    (data : ReferenceData) (gestationalAgeWeeks ageHours : number) (risk : bool) :
  well_formed_data data →
  isNaN gestationalAgeWeeks = false →
  isNaN ageHours = false →
  ((ageHours >? Num 336)%js = true →
     calculateBilirubinThresholds data gestationalAgeWeeks ageHours risk =
       inl (InvalidInputError (AgeExceedsMaximum ageHours))) ∧
  ((ageHours >? Num 336)%js = false →
     ∃ thresholds,
       calculateBilirubinThresholds data gestationalAgeWeeks ageHours risk =
         inr thresholds).
Proof. exact (thresholds_succeed_iff_age_in_table data gestationalAgeWeeks ageHours risk). Qed.

Lemma assessment_succeeds_in_range
    (data : ReferenceData) (input : HyperbiliRiskInput) :
  well_formed_data data →
  out_of_range input = false →
  isNaN (gestationalAge input) = false →
  isNaN (currentAgeHours input) = false →
  ∃ r, assessHyperbiliRisk data input = inr r.
Proof.
  intros Hdata Hrange Hga Hage.
  pose proof (validateHyperbiliRiskInput_out_of_range input) as Hvalid.
  rewrite Hrange in Hvalid.
  unfold assessHyperbiliRisk, bind, ret. rewrite Hvalid.
  assert ((currentAgeHours input >? Num 336)%js = false) as H336.
  { unfold out_of_range in Hrange. rewrite !orb_false_iff in Hrange. tauto. }
  destruct (proj2 (thresholds_succeed_iff_age_in_table
                     data (gestationalAge input) (currentAgeHours input)
                     (0 <? length (default [] (riskFactors input)))%nat
                     Hdata Hga Hage) H336) as [th ->].
  eauto.
Qed.

(** X10. On well-formed reference data the complete assessment succeeds for every
    input that is in range and whose gestational age and age are numbers. *)
Theorem X10_assessHyperbiliRisk_succeeds_in_range
    (data : ReferenceData) (input : HyperbiliRiskInput) :
  well_formed_data data →
  out_of_range input = false →
  isNaN (gestationalAge input) = false →
  isNaN (currentAgeHours input) = false →
  ∃ r, assessHyperbiliRisk data input = inr r.
Proof. exact (assessment_succeeds_in_range data input). Qed.

(** The sample tables are well formed. *)
Lemma Sample_hourly_lookup (base : Q) (lastHour h : Z) :
  (1 ≤ h ≤ lastHour)%Z → is_Some (Sample.hourly base lastHour !! h).
Proof.
  intros Hh. eexists. unfold Sample.hourly. apply elem_of_list_to_map_1.
  - rewrite <- list_fmap_compose.
    assert ((fst ∘ λ h0 : Z, (h0, Num (base + inject_Z h0 / 10))) = Datatypes.id) as ->
      by done.
    rewrite list_fmap_id. apply NoDup_seqZ.
  - apply list_elem_of_fmap. exists h. split; [done|]. apply elem_of_seqZ. lia.
Qed.

Lemma Sample_entry_well_formed descr base plateau :
  isNaN (plateauHour (Sample.entry descr base plateau)) = false ∧
  hours_complete (Sample.entry descr base plateau).
Proof.
  split; [done|]. intros h Hh Hlt. simpl in Hlt. rewrite <- Zlt_Qlt in Hlt.
  apply Sample_hourly_lookup. lia.
Qed.

Ltac sample_key_bounds H :=
  destruct H as [? H];
  cbn [thresholds Sample.phototherapyNoRiskTable Sample.phototherapyWithRiskTable
       Sample.exchangeNoRiskTable Sample.exchangeWithRiskTable
       list_to_map foldr uncurry fst snd] in H;
  repeat (apply lookup_insert_Some in H as [[<- _]|[_ H]]; [lia|]);
  by rewrite lookup_empty in H.

Ltac sample_table_well_formed :=
  split; [by eexists|]; split;
  [ intros lo hi z Hlo Hhi Hz;
    assert (35 ≤ lo ≤ 40)%Z by sample_key_bounds Hlo;
    assert (35 ≤ hi ≤ 38)%Z by sample_key_bounds Hhi;
    assert (z = 35 ∨ z = 36 ∨ z = 37 ∨ z = 38)%Z
      as [->|[->|[-> | ->]]] by lia; by eexists
  | intros k threshold Hk;
    cbn [thresholds Sample.phototherapyNoRiskTable Sample.phototherapyWithRiskTable
         Sample.exchangeNoRiskTable Sample.exchangeWithRiskTable
         list_to_map foldr uncurry fst snd] in Hk;
    repeat (apply lookup_insert_Some in Hk as [[_ <-]|[_ Hk]];
            [apply Sample_entry_well_formed|]);
    by rewrite lookup_empty in Hk ].

Lemma Sample_data_well_formed : well_formed_data Sample.data.
Proof.
  split.
  { eexists. apply loadAllReferenceTables_valid; vm_compute; reflexivity. }
  cbn [phototherapyNoRiskData phototherapyWithRiskData exchangeNoRiskData
       exchangeWithRiskData Sample.data].
  split_and!.
  - split; [by eexists|]. split; [exact Sample_contiguous_35_40|].
    intros k threshold Hk.
    cbn [thresholds Sample.phototherapyNoRiskTable list_to_map foldr uncurry
         fst snd] in Hk.
    repeat (apply lookup_insert_Some in Hk as [[_ <-]|[_ Hk]];
            [apply Sample_entry_well_formed|]).
    by rewrite lookup_empty in Hk.
  - sample_table_well_formed.
  - sample_table_well_formed.
  - sample_table_well_formed.
Qed.

Lemma X8_getThresholdValue_total_on_well_formed_table_witness :
  well_formed_table Sample.exchangeWithRiskTable ∧
  isNaN (Num 36.5) = false ∧ isNaN (Num 12.75) = false ∧
  ∃ value, getThresholdValue Sample.exchangeWithRiskTable (Num 36.5) (Num 12.75) =
             inr value.
Proof.
  assert (Hwf : well_formed_table Sample.exchangeWithRiskTable)
    by apply Sample_data_well_formed.
  split_and!; [exact Hwf|reflexivity..|].
  exact (X8_getThresholdValue_total_on_well_formed_table
           Sample.exchangeWithRiskTable (Num 36.5) (Num 12.75) Hwf eq_refl eq_refl).
Defined.

Lemma X9_calculateBilirubinThresholds_succeeds_iff_age_in_table_witness :
  well_formed_data Sample.data ∧
  (Num 337 >? Num 336)%js = true ∧
  calculateBilirubinThresholds Sample.data (Num 39) (Num 337) true =
    inl (InvalidInputError (AgeExceedsMaximum (Num 337))) ∧
  (Num 336 >? Num 336)%js = false ∧
  ∃ thresholds,
    calculateBilirubinThresholds Sample.data (Num 39) (Num 336) true = inr thresholds.
Proof.
  split_and!; [exact Sample_data_well_formed|reflexivity| |reflexivity|].
  - exact (proj1 (X9_calculateBilirubinThresholds_succeeds_iff_age_in_table
                    Sample.data (Num 39) (Num 337) true Sample_data_well_formed
                    eq_refl eq_refl) eq_refl).
  - exact (proj2 (X9_calculateBilirubinThresholds_succeeds_iff_age_in_table
                    Sample.data (Num 39) (Num 336) true Sample_data_well_formed
                    eq_refl eq_refl) eq_refl).
Defined.

Lemma X10_assessHyperbiliRisk_succeeds_in_range_witness :
  let input := {| gestationalAge := Num 41.5; currentAgeHours := Num 335.5;
                  currentTSB := Num 30; riskFactors := Some ["Sepsis"] |} in
  well_formed_data Sample.data ∧
  out_of_range input = false ∧
  ∃ r, assessHyperbiliRisk Sample.data input = inr r.
Proof.
  intros input. split_and!; [exact Sample_data_well_formed|reflexivity|].
  exact (X10_assessHyperbiliRisk_succeeds_in_range Sample.data input
           Sample_data_well_formed eq_refl eq_refl eq_refl).
Defined.

(* ================================================================== *)
(** ** Loading and validating a table *)
(* ================================================================== *)

Lemma elem_of_Object_entries {A} (o : gmap Z A) (k : Z) (v : A) :
  o !! k = Some v → (k, v) ∈ Object_entries o.
Proof.
  intros Hk. unfold Object_entries. apply list_elem_of_omap. exists k. split.
  - apply elem_of_Object_keys. by exists v.
  - by rewrite Hk.
Qed.

Lemma validateThresholds_inr name entries entry :
  validateThresholds name entries = inr () →
  entry ∈ entries → validateThreshold name entry = inr ().
Proof.
  induction entries as [|e entries IH]; [by intros _ ?%elem_of_nil|].
  cbn [validateThresholds]. unfold bind.
  destruct (validateThreshold name e) as [|[]] eqn:E; [done|].
  intros Hrest [->|Hin]%elem_of_cons; auto.
Qed.

Lemma truthy_nonempty (s : string) : truthy s = true ↔ s ≠ "".
Proof. by destruct s. Qed.

(** X11. A table that loads is the stored one and satisfies what the validation
    checks: non-empty title, description and source, the unit mg/dL, and in
    every bucket a non-empty description and hourly values whose largest
    hour is not below the plateau hour, so that a bucket with a finite
    plateau hour has a value at some hour at or after it. *)
Theorem X11_loadReferenceTable_sound
    (data : ReferenceData) (tableName : string) (table : AapReferenceTable) :
  loadReferenceTable data tableName = inr table →
  REFERENCE_TABLES data !! tableName = Some table ∧
  (title table ≠ "" ∧ description table ≠ "" ∧ source table ≠ "" ∧
   units table = "mg/dL") ∧
  ∀ ga threshold, thresholds table !! ga = Some threshold →
    ga_description threshold ≠ "" ∧
    (∀ p, plateauHour threshold = Num p →
       ∃ h, is_Some (values threshold !! h) ∧ (p <= inject_Z h)%Q).
Proof.
  unfold loadReferenceTable.
  destruct (REFERENCE_TABLES data !! tableName) as [t|]; [|done].
  destruct (validateTableStructure t tableName) as [|[]] eqn:Hvalid; [done|].
  intros [= ->]. split; [done|]. revert Hvalid.
  unfold validateTableStructure, throw.
  destruct (truthy (title table)) eqn:E1; [|done].
  destruct (truthy (description table)) eqn:E2; [|done].
  destruct (truthy (source table)) eqn:E3; [|done].
  destruct (truthy (units table)) eqn:E4; [|done].
  cbn [negb orb].
  destruct (String.eqb (units table) "mg/dL") eqn:E5; [|done].
  cbn [negb]. intros Hentries. split.
  { split_and!; try by apply truthy_nonempty. by apply String.eqb_eq. }
  intros ga threshold Hga.
  pose proof (validateThresholds_inr _ _ _ Hentries
                (elem_of_Object_entries _ _ _ Hga)) as Hentry.
  unfold validateThreshold, throw, ret in Hentry.
  destruct (truthy (ga_description threshold)) eqn:E6; [|done].
  cbn [negb] in Hentry. split; [by apply truthy_nonempty|].
  intros p Hp. rewrite Hp in Hentry.
  destruct (Math_max _ <? Num p)%js eqn:Emax; [done|].
  destruct (decide (Object_keys (values threshold) = [])) as [Hnil|Hne].
  { by rewrite Hnil in Emax. }
  destruct (Math_max_keys _ Hne) as (m & Hm & _ & Heq).
  rewrite Heq in Emax. exists m. split; [by apply elem_of_Object_keys|].
  unfold Number_of_key, num_lt in Emax. apply negb_false_iff in Emax.
  by apply Qle_bool_iff.
Qed.

Lemma X11_loadReferenceTable_sound_witness :
  loadReferenceTable Sample.data "supplemental-table-3-exchange-no-risk" =
    inr Sample.exchangeNoRiskTable ∧
  units Sample.exchangeNoRiskTable = "mg/dL" ∧
  title Sample.exchangeNoRiskTable ≠ "".
Proof.
  assert (Hload : loadReferenceTable Sample.data
                    "supplemental-table-3-exchange-no-risk" =
                  inr Sample.exchangeNoRiskTable).
  { apply loadReferenceTable_valid; [reflexivity|vm_compute; reflexivity]. }
  split; [exact Hload|].
  destruct (X11_loadReferenceTable_sound _ _ _ Hload) as (_ & (Ht & _ & _ & Hu) & _).
  by split.
Defined.




(* ================================================================== *)
(** ** The catalog as a whole *)
(* ================================================================== *)

(** Evaluate every [rule_matches] of the goal from the comparisons recorded
    in the context. *)
Ltac eval_rule_matches_in_goal :=
  repeat match goal with
         | |- context [rule_matches ?g ?a ?r] =>
             let b := fresh "b" in
             let Hb := fresh "Hb" in
             evar (b : bool);
             assert (Hb : rule_matches g a r = b)
               by (subst b; cbv -[Qle_bool];
                   repeat match goal with
                          | E : Qle_bool ?x ?y = _ |- context [Qle_bool ?x ?y] =>
                              rewrite E
                          end;
                   vm_compute; reflexivity);
             subst b; rewrite Hb; clear Hb
         end.

(** Split on the position of a finite gap among the band boundaries and of a
    finite age among the two age thresholds. *)
Ltac compare_gap q :=
  compare_with q 0.1%Q; compare_with q 2.0%Q; compare_with q 3.5%Q;
  compare_with q 5.5%Q; compare_with q 7.0%Q; try (exfalso; lra).

Ltac compare_age a :=
  let E24 := fresh "E24" in
  let E72 := fresh "E72" in
  let H24 := fresh "H24" in
  let H72 := fresh "H72" in
  destruct (Qle_bool 24 a) eqn:E24;
  [ assert (H24 : (24 <= a)%Q) by (by apply Qle_bool_iff)
  | assert (H24 : ¬ (24 <= a)%Q) by (rewrite <- Qle_bool_iff; congruence) ];
  (destruct (Qle_bool 72 a) eqn:E72;
   [ assert (H72 : (72 <= a)%Q) by (by apply Qle_bool_iff)
   | assert (H72 : ¬ (72 <= a)%Q) by (rewrite <- Qle_bool_iff; congruence) ]);
  try (exfalso; lra).

(** X13. The rules of the catalog do not overlap: whatever the gap and the age,
    at most one rule matches, so the catalog order never decides between two
    candidates. *)
Theorem X13_catalog_rules_are_disjoint (gap ageHours : number) :
  (length (List.filter (rule_matches gap ageHours) HYPERBILI_FOLLOW_UP_RULES) ≤ 1)%nat.
Proof.
  unfold HYPERBILI_FOLLOW_UP_RULES; cbn [List.filter].
  destruct gap as [| |q|]; [vm_compute; lia|vm_compute; lia| |].
  - compare_gap q; destruct ageHours as [| |a|]; try compare_age a;
      eval_rule_matches_in_goal; cbn [length]; lia.
  - destruct ageHours as [| |a|]; try compare_age a;
      eval_rule_matches_in_goal; cbn [length]; lia.
Qed.

(** X14. For a positive gap and an age that is a number, the matcher falls back to
    the generic recommendation exactly when the gap is at most 0.1: the
    catalog covers every gap above 0.1 at every age, and no gap in
    (0, 0.1]. *)
Theorem X14_findFollowUpRule_fallback_iff (gap ageHours : number) :
  Lt (Num 0) gap →
  isNaN ageHours = false →
  (findFollowUpRule gap ageHours = rule_fallback ↔ Le gap (Num 0.1)).
Proof.
  intros Hpos Hage. unfold findFollowUpRule. rewrite (positive_not_le_0 _ Hpos).
  unfold HYPERBILI_FOLLOW_UP_RULES; cbn [find].
  destruct gap as [| |q|]; try done; destruct ageHours as [| |a|]; try done.
  1-3: simpl in Hpos; compare_gap q; try compare_age a;
    eval_rule_matches_in_goal; cbv match;
    (split; [intros Heq; first [discriminate Heq | simpl; lra]
            |intros Hle; first [reflexivity | simpl in Hle; exfalso; lra]]).
  all: try compare_age a; eval_rule_matches_in_goal; cbv match;
    (split; [intros Heq; discriminate Heq|intros Hle; destruct Hle]).
Qed.

Lemma X14_findFollowUpRule_fallback_iff_witness :
  Lt (Num 0) (Num 0.1) ∧ isNaN (Num 50) = false ∧ Le (Num 0.1) (Num 0.1) ∧
  findFollowUpRule (Num 0.1) (Num 50) = rule_fallback.
Proof.
  assert (Hpos : Lt (Num 0) (Num 0.1)) by (by vm_compute).
  assert (Hle : Le (Num 0.1) (Num 0.1)) by (by vm_compute).
  split_and!; [exact Hpos|reflexivity|exact Hle|].
  exact (proj2 (X14_findFollowUpRule_fallback_iff (Num 0.1) (Num 50) Hpos eq_refl) Hle).
Defined.

(* ================================================================== *)
(** ** Clinical guidance *)
(* ================================================================== *)

Lemma neg_le_0 (d : number) : (- d <=? Num 0)%js = (d >=? Num 0)%js.
Proof.
  destruct d as [| |x|]; try done. unfold num_neg, num_ge, num_le.
  apply eq_true_iff_eq. rewrite !Qle_bool_iff. split; lra.
Qed.

(** What [findFollowUpRule] returns past the sentinel test is a rule of the
    catalog or the fallback rule. *)
Lemma findFollowUpRule_positive_cases gap ageHours :
  (gap <=? Num 0)%js = false →
  findFollowUpRule gap ageHours ∈ rule_fallback :: HYPERBILI_FOLLOW_UP_RULES.
Proof.
  intros Hgap. unfold findFollowUpRule. rewrite Hgap.
  destruct (find _ _) as [rule|] eqn:E; [|by left].
  right. apply find_some in E as [Hin _]. by apply list_elem_of_In.
Qed.

(** X15. [generateClinicalGuidance] never hands out the recommendation of the
    sentinel [BELOW_THRESHOLD_RULE]: a measurement at or above the
    phototherapy threshold gets the fixed "see clinical action" text, and
    every other measurement a catalog or fallback recommendation. *)
Theorem X15_generateClinicalGuidance_never_uses_sentinel
    (bilirubinMgDl : number) (thresholds : AapBilirubinThresholds)
    (ageHours : number) :
  followUpRecommendation (generateClinicalGuidance bilirubinMgDl thresholds ageHours)
    ≠ recommendation BELOW_THRESHOLD_RULE.
Proof.
  unfold generateClinicalGuidance. cbn [followUpRecommendation].
  destruct (bilirubinMgDl - phototherapy thresholds >=? Num 0)%js eqn:E; [done|].
  rewrite <- neg_le_0 in E.
  pose proof (findFollowUpRule_positive_cases _ ageHours E) as Hin.
  revert Hin. generalize (findFollowUpRule
                            (- (bilirubinMgDl - phototherapy thresholds)) ageHours).
  intros rule Hin. unfold HYPERBILI_FOLLOW_UP_RULES in Hin.
  repeat (apply elem_of_cons in Hin as [->|Hin]; [done|]).
  by apply elem_of_nil in Hin.
Qed.

(** X16. For a finite measurement and a finite phototherapy threshold, the
    follow-up text is the fixed "Phototherapy indicated" one exactly when the
    [requiresPhototherapy] flag is set. *)
Theorem X16_followUp_agrees_with_requiresPhototherapy
    (measured : Q) (thresholds : AapBilirubinThresholds) (threshold : Q)
    (ageHours : number) :
  phototherapy thresholds = Num threshold →
  (followUpRecommendation
     (generateClinicalGuidance (Num measured) thresholds ageHours) =
   "Phototherapy indicated - see clinical action" ↔
   requiresPhototherapy (assessClinicalStatus (Num measured) thresholds) = true).
Proof.
  intros Hp. unfold generateClinicalGuidance, assessClinicalStatus.
  cbn [followUpRecommendation requiresPhototherapy]. rewrite Hp.
  assert ((Num measured - Num threshold >=? Num 0)%js =
          (Num measured >=? Num threshold)%js) as Hsame.
  { unfold num_sub, num_ge, num_le. apply eq_true_iff_eq.
    rewrite !Qle_bool_iff. split; lra. }
  rewrite Hsame. destruct (Num measured >=? Num threshold)%js eqn:E; [done|].
  split; [|done].
  assert (Hneg : (- (Num measured - Num threshold) <=? Num 0)%js = false)
    by (rewrite neg_le_0; congruence).
  pose proof (findFollowUpRule_positive_cases _ ageHours Hneg) as Hin.
  revert Hin. generalize (findFollowUpRule (- (Num measured - Num threshold)) ageHours).
  intros rule Hin. unfold HYPERBILI_FOLLOW_UP_RULES in Hin.
  repeat (apply elem_of_cons in Hin as [->|Hin]; [done|]).
  by apply elem_of_nil in Hin.
Qed.

Lemma X16_followUp_agrees_with_requiresPhototherapy_witness :
  let thresholds := {| phototherapy := Num 12.5; escalationOfCare := Num 19.5;
                       exchangeTransfusion := Num 21.5;
                       transcutaneousBilirubinConfirmation := Num 10.5 |} in
  phototherapy thresholds = Num 12.5 ∧
  requiresPhototherapy (assessClinicalStatus (Num 12.5) thresholds) = true ∧
  followUpRecommendation (generateClinicalGuidance (Num 12.5) thresholds (Num 30)) =
    "Phototherapy indicated - see clinical action".
Proof.
  intros thresholds. split_and!; [reflexivity..|].
  exact (proj2 (X16_followUp_agrees_with_requiresPhototherapy
                  12.5 thresholds 12.5 (Num 30) eq_refl) eq_refl).
Defined.



(* ================================================================== *)
(** ** Validation and the complete assessment *)
(* ================================================================== *)

Lemma num_lt_false_Le (a b : number) :
  isNaN a = false → isNaN b = false → (a <? b)%js = false → Le b a.
Proof.
  destruct a as [| |x|], b as [| |y|]; simpl; try done.
  intros _ _ E. apply negb_false_iff in E. by apply Qle_bool_iff.
Qed.

Lemma Le_num_lt_false (a b : number) : Le b a → (a <? b)%js = false.
Proof.
  intros Hle. apply not_true_iff_false. rewrite num_lt_Lt.
  intros Hlt. by apply Lt_not_Le in Hlt.
Qed.

Lemma range_checks_pass (lo hi x : number) :
  isNaN lo = false → isNaN hi = false →
  ((x <? lo)%js = false ∧ (x >? hi)%js = false ↔ passes_range_check lo hi x).
Proof.
  intros Hlo Hhi. unfold passes_range_check, num_gt.
  destruct (isNaN x) eqn:Hx.
  - destruct x; try done. split; [by left|intros _; by destruct hi].
  - split.
    + intros [H1 H2]. right. split; by apply num_lt_false_Le.
    + intros [?|[H1 H2]]; [done|]. split; by apply Le_num_lt_false.
Qed.

(** X18. The validation accepts an input exactly when each of its three fields
    lies in its closed range (35..42 weeks, 1..336 hours, 0..30 mg/dL) or is
    [NaN]: a [NaN] field fails none of the comparisons and is let through. *)
Theorem X18_validateHyperbiliRiskInput_accepts_iff (input : HyperbiliRiskInput) :
  validateHyperbiliRiskInput input = inr () ↔
  passes_range_check (Num 35) (Num 42) (gestationalAge input) ∧
  passes_range_check (Num 1) (Num 336) (currentAgeHours input) ∧
  passes_range_check (Num 0) (Num 30) (currentTSB input).
Proof.
  rewrite <- !range_checks_pass by done.
  pose proof (validateHyperbiliRiskInput_out_of_range input) as Hvalid.
  destruct (out_of_range input) eqn:Hrange.
  - destruct Hvalid as (e & -> & _). split; [done|].
    unfold out_of_range in Hrange. rewrite !orb_true_iff in Hrange.
    intros ([? ?] & [? ?] & [? ?]). intuition congruence.
  - split; [|done]. intros _.
    unfold out_of_range in Hrange. rewrite !orb_false_iff in Hrange. tauto.
Qed.

(** X19. A [NaN] bilirubin is not rejected. When the assessment of such an input
    succeeds, every flag is false, the immediate action is "No phototherapy
    required", the follow-up is the fallback recommendation and there is no
    discharge caveat. *)
Theorem X19_assessHyperbiliRisk_NaN_bilirubin
    (data : ReferenceData) (input : HyperbiliRiskInput) (r : HyperbiliRiskResult) :
  currentTSB input = NaN →
  assessHyperbiliRisk data input = inr r →
  clinicalStatus r =
    {| requiresPhototherapy := false; requiresIntensivePhototherapy := false;
       requiresExchangeTransfusion := false;
       requiresSerumConfirmationForTcB := false |} ∧
  clinicalGuidance r =
    {| immediateAction := "No phototherapy required";
       followUpRecommendation := "Clinical judgment - consult AAP guidelines";
       dischargeConsiderations := None |}.
Proof.
  intros Htsb. unfold assessHyperbiliRisk, bind, ret.
  destruct (validateHyperbiliRiskInput input); [done|].
  destruct (calculateBilirubinThresholds _ _ _ _) as [|th]; [done|].
  intros [= <-]. cbn [clinicalStatus clinicalGuidance]. rewrite Htsb.
  assert (Hge : ∀ x, (NaN >=? x)%js = false) by (by intros []).
  unfold assessClinicalStatus, generateClinicalGuidance, determineAapClinicalAction.
  rewrite !Hge. split; [done|]. cbn. by rewrite andb_false_r.
Qed.

Lemma X19_assessHyperbiliRisk_NaN_bilirubin_witness :
  let input := {| gestationalAge := Num 39; currentAgeHours := Num 48;
                  currentTSB := NaN; riskFactors := None |} in
  currentTSB input = NaN ∧
  ∃ r, assessHyperbiliRisk Sample.data input = inr r ∧
       immediateAction (clinicalGuidance r) = "No phototherapy required".
Proof.
  intros input. split; [reflexivity|].
  destruct (assessment_succeeds_in_range Sample.data input
              Sample_data_well_formed eq_refl eq_refl eq_refl) as [r Hr].
  exists r. split; [exact Hr|].
  destruct (X19_assessHyperbiliRisk_NaN_bilirubin Sample.data input r eq_refl Hr)
    as [_ ->]. reflexivity.
Defined.

(** X20. A [NaN] gestational age passes the validation as well and surfaces only
    in the key resolver, as its [InvalidInputError]. *)
Theorem X20_assessHyperbiliRisk_NaN_gestationalAge
    (data : ReferenceData) (input : HyperbiliRiskInput) :
  (∃ tables, loadAllReferenceTables data = inr tables) →
  gestationalAge input = NaN →
  out_of_range input = false →
  ∃ availableKeys,
    assessHyperbiliRisk data input =
      inl (InvalidInputError (UnableToDetermineKey NaN availableKeys)).
Proof.
  intros [tables Hload] Hga Hrange.
  pose proof (validateHyperbiliRiskInput_out_of_range input) as Hvalid.
  rewrite Hrange in Hvalid.
  unfold assessHyperbiliRisk, calculateBilirubinThresholds, bind, ret, throw.
  rewrite Hvalid, Hload.
  assert ((currentAgeHours input >? HYPERBILI_THRESHOLDS.MAX_AGE_HOURS)%js = false)
    as ->.
  { unfold out_of_range in Hrange. rewrite !orb_false_iff in Hrange. tauto. }
  rewrite Hga. unfold getThresholdValue, bind.
  rewrite resolver_rejects_NaN. eauto.
Qed.

Lemma X20_assessHyperbiliRisk_NaN_gestationalAge_witness :
  let input := {| gestationalAge := NaN; currentAgeHours := Num 48;
                  currentTSB := Num 10; riskFactors := None |} in
  out_of_range input = false ∧
  ∃ availableKeys,
    assessHyperbiliRisk Sample.data input =
      inl (InvalidInputError (UnableToDetermineKey NaN availableKeys)).
Proof.
  intros input. split; [reflexivity|].
  exact (X20_assessHyperbiliRisk_NaN_gestationalAge Sample.data input
           (proj1 Sample_data_well_formed) eq_refl eq_refl).
Defined.

(** X21. Which risk factors are present does not matter, only whether there is
    one: two non-empty lists give the same error or results that differ in
    [presentRiskFactors] alone, both derived from the tables with risk
    factors and reporting figure 3. *)
Theorem X21_assessHyperbiliRisk_depends_on_presence_only
    (data : ReferenceData) (input : HyperbiliRiskInput) (rf1 rf2 : list string) :
  rf1 ≠ [] → rf2 ≠ [] →
  match assessHyperbiliRisk data (with_riskFactors input (Some rf1)),
        assessHyperbiliRisk data (with_riskFactors input (Some rf2)) with
  | inl e1, inl e2 => e1 = e2
  | inr r1, inr r2 =>
      same_but_presentRiskFactors r1 r2 ∧
      presentRiskFactors (assessmentContext r1) = rf1 ∧
      presentRiskFactors (assessmentContext r2) = rf2 ∧
      aapFigureUsed (assessmentContext r1) = 3%Z ∧
      calculateBilirubinThresholds data (gestationalAge input)
        (currentAgeHours input) true = inr (res_thresholds r1)
  | _, _ => False
  end.
Proof.
  intros H1 H2. unfold assessHyperbiliRisk, bind, ret.
  change (validateHyperbiliRiskInput (with_riskFactors input (Some rf1)))
    with (validateHyperbiliRiskInput input).
  change (validateHyperbiliRiskInput (with_riskFactors input (Some rf2)))
    with (validateHyperbiliRiskInput input).
  destruct (validateHyperbiliRiskInput input); [done|].
  destruct rf1 as [|f1 rf1]; [done|]. destruct rf2 as [|f2 rf2]; [done|].
  cbn [with_riskFactors riskFactors gestationalAge currentAgeHours currentTSB
       from_option length Nat.ltb Nat.leb].
  destruct (calculateBilirubinThresholds _ _ _ _) as [|th]; [done|].
  by repeat split.
Qed.

Lemma X21_assessHyperbiliRisk_depends_on_presence_only_witness :
  let input := {| gestationalAge := Num 37; currentAgeHours := Num 72;
                  currentTSB := Num 15; riskFactors := None |} in
  ["G6PD deficiency"] ≠ [] ∧ ["Sepsis"; "Serum albumin <3.0 g/dL"] ≠ [] ∧
  ∃ r1 r2,
    assessHyperbiliRisk Sample.data
      (with_riskFactors input (Some ["G6PD deficiency"])) = inr r1 ∧
    assessHyperbiliRisk Sample.data
      (with_riskFactors input (Some ["Sepsis"; "Serum albumin <3.0 g/dL"])) = inr r2 ∧
    res_thresholds r1 = res_thresholds r2.
Proof.
  intros input.
  assert (H1 : ["G6PD deficiency"] ≠ @nil string) by done.
  assert (H2 : ["Sepsis"; "Serum albumin <3.0 g/dL"] ≠ @nil string) by done.
  split; [exact H1|]. split; [exact H2|].
  pose proof (X21_assessHyperbiliRisk_depends_on_presence_only Sample.data input
                _ _ H1 H2) as Hsame.
  destruct (assessment_succeeds_in_range Sample.data
              (with_riskFactors input (Some ["G6PD deficiency"]))
              Sample_data_well_formed eq_refl eq_refl eq_refl) as [r1 Hr1].
  destruct (assessment_succeeds_in_range Sample.data
              (with_riskFactors input (Some ["Sepsis"; "Serum albumin <3.0 g/dL"]))
              Sample_data_well_formed eq_refl eq_refl eq_refl) as [r2 Hr2].
  rewrite Hr1, Hr2 in Hsame. exists r1, r2.
  split; [exact Hr1|]. split; [exact Hr2|]. apply Hsame.
Defined.

(** X22. The flags of a successful derivation are nested: a measurement that
    requires exchange transfusion also requires intensive phototherapy, and
    one that requires phototherapy also requires the serum confirmation,
    since each derived threshold lies 2 below its raw threshold. *)
Theorem X22_status_flags_are_nested
    (data : ReferenceData) (gestationalAgeWeeks ageHours : number) (risk : bool)
    (thresholds : AapBilirubinThresholds) (bilirubinMgDl : number) :
  calculateBilirubinThresholds data gestationalAgeWeeks ageHours risk =
    inr thresholds →
  let status := assessClinicalStatus bilirubinMgDl thresholds in
  (requiresExchangeTransfusion status = true →
     requiresIntensivePhototherapy status = true) ∧
  (requiresPhototherapy status = true →
     requiresSerumConfirmationForTcB status = true).
Proof.
  unfold calculateBilirubinThresholds, bind, ret, throw.
  destruct (loadAllReferenceTables data) as [|tables]; [done|].
  destruct (ageHours >? HYPERBILI_THRESHOLDS.MAX_AGE_HOURS)%js; [done|].
  destruct (getThresholdValue _ _ _) as [|P]; [done|].
  destruct (getThresholdValue _ _ _) as [|E]; [done|].
  intros [= <-]. cbn.
  change HYPERBILI_THRESHOLDS.ESCALATION_OFFSET_MG_DL with (Num 2).
  change HYPERBILI_THRESHOLDS.TCB_CONFIRMATION_OFFSET_MG_DL with (Num 2).
  split; rewrite !num_ge_Le.
  - destruct E, bilirubinMgDl; simpl; try done. lra.
  - destruct P, bilirubinMgDl; simpl; try done. lra.
Qed.

Lemma X22_status_flags_are_nested_witness :
  let thresholds := {| phototherapy := Num 9.90; escalationOfCare := Num 17.4;
                       exchangeTransfusion := Num 19.4;
                       transcutaneousBilirubinConfirmation := Num 7.90 |} in
  calculateBilirubinThresholds Sample.data (Num 38) (Num 24) false =
    inr thresholds ∧
  requiresExchangeTransfusion (assessClinicalStatus (Num 25) thresholds) = true ∧
  requiresIntensivePhototherapy (assessClinicalStatus (Num 25) thresholds) = true.
Proof.
  intros thresholds.
  assert (Hth : calculateBilirubinThresholds Sample.data (Num 38) (Num 24) false =
                inr thresholds) by (vm_compute; reflexivity).
  split; [exact Hth|]. split; [reflexivity|].
  exact (proj1 (X22_status_flags_are_nested Sample.data (Num 38) (Num 24) false
                  thresholds (Num 25) Hth) eq_refl).
Defined.

(* ================================================================== *)
(** ** Error objects *)
(* ================================================================== *)

Section EnsureError.
Context {V U : Type} (String_of : U → string).

(** X23. With a context, [ensureError] turns every calculator error into an
    [InternalError]: the message is kept, the original class is not, and the
    new context holds the given entries over those of the original error.
    A plain [Error] comes back unchanged and the context is dropped; without
    a context every [Error] comes back unchanged. *)
Theorem X23_ensureError_outcomes :
  (∀ e c,
     ∃ e', ErrorObjects.ensureError (V:=V) String_of
             (ErrorObjects.CalculatorErrorValue e) (Some c) =
             ErrorObjects.CalculatorError e' ∧
           ErrorObjects.name e' = ErrorObjects.InternalErrorName ∧
           ErrorObjects.message e' = ErrorObjects.message e ∧
           ∃ merged, ErrorObjects.context e' = Some merged ∧
             ∀ k, merged !! k =
                  match c !! k with
                  | Some v => Some v
                  | None => default ∅ (ErrorObjects.context e) !! k
                  end) ∧
  (∀ m c,
     ErrorObjects.ensureError (V:=V) String_of (ErrorObjects.PlainErrorValue m) c =
       ErrorObjects.PlainError m) ∧
  (∀ e,
     ErrorObjects.ensureError (V:=V) String_of (ErrorObjects.Error_as_unknown e) None =
       e).
Proof.
  split_and!.
  - intros e c. eexists. split; [reflexivity|]. split_and!; [done..|].
    eexists. split; [reflexivity|]. intros k. unfold ErrorObjects.spread.
    rewrite lookup_union. by destruct (c !! k), (default ∅ _ !! k).
  - done.
  - by intros [e|m].
Qed.

(** X24. Passing the result of [ensureError] through [ensureError] again, with
    the same context, changes nothing. *)
Theorem X24_ensureError_idempotent
    (error : ErrorObjects.unknown) (c : option (gmap string V)) :
  ErrorObjects.ensureError (V:=V) String_of
    (ErrorObjects.Error_as_unknown
       (ErrorObjects.ensureError (V:=V) String_of error c)) c =
  ErrorObjects.ensureError (V:=V) String_of error c.
Proof.
  destruct error as [e|m|u], c as [c|]; cbn; try done.
  - unfold ErrorObjects.spread. cbn. do 3 f_equal.
    apply map_eq. intros k. rewrite !lookup_union.
    by destruct (c !! k), (default ∅ _ !! k).
  - unfold ErrorObjects.spread. cbn. do 3 f_equal.
    apply map_eq. intros k. rewrite !lookup_union.
    by destruct (c !! k).
Qed.
End EnsureError.

(* ================================================================== *)
(** ** Grouping rules and the value below the plateau *)
(* ================================================================== *)

Lemma Array_includes_key_40 {A} (o : gmap Z A) :
  Array_includes (Number_of_key <$> Object_keys o) (Num 40) = true ↔
  is_Some (o !! 40%Z).
Proof.
  rewrite Array_includes_keys. split.
  - intros (k & q & [= <-] & Hq & Hk). change 40%Q with (inject_Z 40) in Hq.
    apply (proj1 (inject_Z_injective _ _)) in Hq. subst k.
    by apply elem_of_Object_keys.
  - intros H40. exists 40%Z, 40%Q. split_and!; [done..|].
    by apply elem_of_Object_keys.
Qed.

(** X25. The grouped buckets. On a table titled "...Without..." that has a
    40-week bucket, every age of 40 weeks or more resolves to key 40. On a
    table titled "...Exchange..." without a 40-week bucket, every age of 38
    weeks or more resolves to key 38, whether the title says "With" or
    "Without", and so does every such age on a table titled "...With..." and
    "...Phototherapy..." but not "...Without...". The boundary ages 40 and 38
    themselves are grouped. *)
Theorem X25_determineGestationalAgeKey_grouped_buckets
    (table : AapReferenceTable) (gestationalAge : number) :
  (String_includes (title table) "Without" = true →
   is_Some (thresholds table !! 40%Z) →
   Le (Num 40) gestationalAge →
   determineGestationalAgeKey table gestationalAge = inr (Num 40)) ∧
  (String_includes (title table) "Exchange" = true →
   thresholds table !! 40%Z = None →
   Le (Num 38) gestationalAge →
   determineGestationalAgeKey table gestationalAge = inr (Num 38)) ∧
  (String_includes (title table) "Without" = false →
   String_includes (title table) "With" = true →
   String_includes (title table) "Phototherapy" = true →
   Le (Num 38) gestationalAge →
   determineGestationalAgeKey table gestationalAge = inr (Num 38)).
Proof.
  unfold determineGestationalAgeKey. split_and!.
  - intros -> H40%Array_includes_key_40 Hge%num_ge_Le. by rewrite H40, Hge.
  - intros -> H40 Hge%num_ge_Le. rewrite Hge.
    assert (Array_includes (Number_of_key <$> Object_keys (thresholds table))
              (Num 40) = false) as ->.
    { apply not_true_iff_false. rewrite Array_includes_key_40, H40.
      by intros [? [=]]. }
    rewrite andb_false_r. cbn [andb]. by repeat case_match.
  - intros -> -> -> Hge%num_ge_Le. by rewrite Hge.
Qed.

Lemma X25_determineGestationalAgeKey_grouped_buckets_witness :
  String_includes (title Sample.phototherapyNoRiskTable) "Without" = true ∧
  is_Some (thresholds Sample.phototherapyNoRiskTable !! 40%Z) ∧
  Le (Num 40) (Num 40) ∧
  determineGestationalAgeKey Sample.phototherapyNoRiskTable (Num 40) = inr (Num 40) ∧
  String_includes (title Sample.exchangeNoRiskTable) "Exchange" = true ∧
  thresholds Sample.exchangeNoRiskTable !! 40%Z = None ∧
  Le (Num 38) (Num 41.5) ∧
  determineGestationalAgeKey Sample.exchangeNoRiskTable (Num 41.5) = inr (Num 38).
Proof.
  assert (H40 : is_Some (thresholds Sample.phototherapyNoRiskTable !! 40%Z))
    by (by eexists).
  assert (Hge40 : Le (Num 40) (Num 40)) by (by vm_compute).
  assert (Hge38 : Le (Num 38) (Num 41.5)) by (by vm_compute).
  split_and!; [reflexivity|exact H40|exact Hge40| |reflexivity|reflexivity|
               exact Hge38|].
  - exact (proj1 (X25_determineGestationalAgeKey_grouped_buckets
                    Sample.phototherapyNoRiskTable (Num 40)) eq_refl H40 Hge40).
  - exact (proj1 (proj2 (X25_determineGestationalAgeKey_grouped_buckets
                           Sample.exchangeNoRiskTable (Num 41.5)))
             eq_refl eq_refl Hge38).
Defined.

(** X26. Below the plateau the lookup returns the value stored at exactly the
    integer hour [max 1 (min 336 (floor ageHours))] of the resolved bucket,
    without interpolation between hours. *)
Theorem X26_getThresholdValue_below_plateau
    (table : AapReferenceTable) (gestationalAge gaKey : number)
    (threshold : GestationalAgeThreshold) (ageHours : Q) (value : number) :
  determineGestationalAgeKey table gestationalAge = inr gaKey →
  get_by_String (thresholds table) gaKey = Some threshold →
  let hour := Z.max 1 (Z.min 336 (Qfloor ageHours)) in
  Lt (Num (inject_Z hour)) (plateauHour threshold) →
  values threshold !! hour = Some value →
  getThresholdValue table gestationalAge (Num ageHours) = inr value.
Proof.
  intros Hkey Hbucket hour Hbelow Hvalue.
  rewrite (getThresholdValue_resolved _ _ _ _ Hkey Hbucket).
  destruct (clampHours_range_lemma (Num ageHours) eq_refl) as (h & -> & _ & Hq & _).
  rewrite (Hq _ eq_refl). fold hour.
  rewrite (num_lt_not_ge _ _ (proj2 (num_lt_Lt _ _) Hbelow)).
  by rewrite get_by_String_integer, Hvalue.
Qed.

Lemma X26_getThresholdValue_below_plateau_witness :
  determineGestationalAgeKey Sample.exchangeWithRiskTable (Num 36.9) = inr (Num 36) ∧
  get_by_String (thresholds Sample.exchangeWithRiskTable) (Num 36) =
    Some (Sample.entry "36 weeks" 13 60) ∧
  Lt (Num (inject_Z (Z.max 1 (Z.min 336 (Qfloor 12.75)))))
     (plateauHour (Sample.entry "36 weeks" 13 60)) ∧
  values (Sample.entry "36 weeks" 13 60) !! 12%Z = Some (Num (13 + 12 / 10)) ∧
  getThresholdValue Sample.exchangeWithRiskTable (Num 36.9) (Num 12.75) =
    inr (Num (13 + 12 / 10)).
Proof.
  assert (Hlt : Lt (Num (inject_Z (Z.max 1 (Z.min 336 (Qfloor 12.75)))))
                   (plateauHour (Sample.entry "36 weeks" 13 60)))
    by (by vm_compute).
  assert (Hvalue : values (Sample.entry "36 weeks" 13 60) !! 12%Z =
                   Some (Num (13 + 12 / 10))) by (vm_compute; reflexivity).
  split_and!; [reflexivity|reflexivity|exact Hlt|exact Hvalue|].
  exact (X26_getThresholdValue_below_plateau Sample.exchangeWithRiskTable
           (Num 36.9) (Num 36) (Sample.entry "36 weeks" 13 60) 12.75
           (Num (13 + 12 / 10)) eq_refl eq_refl Hlt Hvalue).
Defined.
